(** * Reservation engine of ReservasSalas: a shallow embedding

    Sources embedded here:
    - crates/features/reservas/domain/src/{reserva.rs, error.rs}
    - crates/features/reservas/application/src/{repository.rs, service.rs}
    - crates/features/reservas/infrastructure/src/{inmemory_repository.rs,
      file_repository.rs}

    Conventions.
    - [DateTime<Utc>] is an instant in nanoseconds since the epoch ([Z]); a
      chrono [Duration] is a difference of instants, also in nanoseconds.
    - Rust [String]s are [string]s holding their UTF-8 bytes; [trim] strips
      every character [char::is_whitespace] accepts (Unicode White_Space),
      matched on its UTF-8 encoding.
    - The file system of [FileReservaRepository] is explicit: the files'
      contents, and per path the io error of a read, of [create_dir_all] or
      of [fs::write] (refused by [File::create], or failing in [write_all]
      after some bytes); serde is a pair of functions returning [Result]
      with the error's text.
    - [Utc::now()] and [Uuid::new_v4()] are read from the environment: every
      function that calls them takes the value read as an explicit argument.
    - A [HashMap<String, Reserva>] is a [gmap string Reserva]. *)

From stdpp Require Import base gmap strings list fin_maps.
From Stdlib Require Import ZArith.

Open Scope Z_scope.

(* ------------------------------------------------------------------ *)
(** ** Domain: [reserva.rs] and [error.rs] *)

Module Dominio.

(** [pub enum EstadoReserva] *)
Inductive EstadoReserva := Activa | Cancelada | Completada.

#[global] Instance EstadoReserva_eq_dec : EqDecision EstadoReserva.
Proof. solve_decision. Defined.

(** [pub struct Reserva] *)
Record Reserva := mkReserva {
  id : string;
  sala_id : string;
  usuario_id : string;
  fecha_inicio : Z;
  fecha_fin : Z;
  estado : EstadoReserva;
  created_at : Z
}.

#[global] Instance Reserva_eq_dec : EqDecision Reserva.
Proof. solve_decision. Defined.

(** [pub enum ReservaError] *)
Inductive ReservaError :=
  | SalaIdVacio
  | UsuarioIdVacio
  | FechaInicioInvalida
  | FechaFinInvalida
  | FechaFinAnteriorAInicio
  | DuracionInvalida
  | NoEncontrada
  | ErrorRepositorio (msg : string)
  | Validacion (msgs : list string).

(** Rust's [Result<T, E>]. *)
Inductive Result (T E : Type) := Ok (v : T) | Err (e : E).
Arguments Ok {T E} v.
Arguments Err {T E} e.

(** chrono's [Duration::minutes] and [Duration::hours], in nanoseconds. *)
Definition Duration_minutes (m : Z) : Z := m * 60 * 1000000000.
Definition Duration_hours (h : Z) : Z := h * 3600 * 1000000000.

(** Strings are their UTF-8 bytes. [char::is_whitespace] is Unicode's
    [White_Space]: U+0009..U+000D and U+0020 (one byte), U+0085 and U+00A0
    (two bytes), U+1680, U+2000..U+200A, U+2028, U+2029, U+202F, U+205F and
    U+3000 (three bytes). *)
Definition is_whitespace (c : Ascii.ascii) : bool :=
  let n := Ascii.nat_of_ascii c in ((9 <=? n)%nat && (n <=? 13)%nat) || (n =? 32)%nat.

Definition is_whitespace2 (c1 c2 : Ascii.ascii) : bool :=
  let b1 := Ascii.nat_of_ascii c1 in let b2 := Ascii.nat_of_ascii c2 in
  (b1 =? 194)%nat && ((b2 =? 133)%nat || (b2 =? 160)%nat).

Definition is_whitespace3 (c1 c2 c3 : Ascii.ascii) : bool :=
  let b1 := Ascii.nat_of_ascii c1 in let b2 := Ascii.nat_of_ascii c2 in
  let b3 := Ascii.nat_of_ascii c3 in
  ((b1 =? 225)%nat && (b2 =? 154)%nat && (b3 =? 128)%nat) ||
  ((b1 =? 226)%nat && (b2 =? 128)%nat &&
     (((128 <=? b3)%nat && (b3 <=? 138)%nat) || (b3 =? 168)%nat || (b3 =? 169)%nat ||
      (b3 =? 175)%nat)) ||
  ((b1 =? 226)%nat && (b2 =? 129)%nat && (b3 =? 159)%nat) ||
  ((b1 =? 227)%nat && (b2 =? 128)%nat && (b3 =? 128)%nat).

(** [str::trim_start]: drops the leading white-space characters. *)
Fixpoint trim_start (s : string) : string :=
  match s with
  | EmptyString => EmptyString
  | String c1 r1 =>
      if is_whitespace c1 then trim_start r1 else
      match r1 with
      | EmptyString => s
      | String c2 r2 =>
          if is_whitespace2 c1 c2 then trim_start r2 else
          match r2 with
          | EmptyString => s
          | String c3 r3 => if is_whitespace3 c1 c2 c3 then trim_start r3 else s
          end
      end
  end.

(** [str::is_empty] *)
Definition is_empty (s : string) : bool :=
  match s with EmptyString => true | _ => false end.

Fixpoint bytes_rev_append (s acc : string) : string :=
  match s with
  | EmptyString => acc
  | String c r => bytes_rev_append r (String c acc)
  end.

(** The bytes of [s] from last to first. *)
Definition reverse_bytes (s : string) : string := bytes_rev_append s EmptyString.

(** On the reversed bytes: drops the white-space characters that ended the
    string, each one's bytes read backwards. *)
Fixpoint trim_start_reversed (s : string) : string :=
  match s with
  | EmptyString => EmptyString
  | String c1 r1 =>
      if is_whitespace c1 then trim_start_reversed r1 else
      match r1 with
      | EmptyString => s
      | String c2 r2 =>
          if is_whitespace2 c2 c1 then trim_start_reversed r2 else
          match r2 with
          | EmptyString => s
          | String c3 r3 => if is_whitespace3 c3 c2 c1 then trim_start_reversed r3 else s
          end
      end
  end.

(** [str::trim_end] *)
Definition trim_end (s : string) : string :=
  reverse_bytes (trim_start_reversed (reverse_bytes s)).

(** [str::trim] *)
Definition trim (s : string) : string := trim_end (trim_start s).

(** The messages pushed by [Reserva::new]. *)
Definition msg_sala_vacia := "El ID de sala no puede estar vacío"%string.
Definition msg_usuario_vacio := "El ID de usuario no puede estar vacío"%string.
Definition msg_inicio_pasado := "La fecha de inicio no puede ser en el pasado"%string.
Definition msg_fin_pasado := "La fecha de fin no puede ser en el pasado"%string.
Definition msg_orden := "La fecha de fin debe ser posterior a la fecha de inicio"%string.
Definition msg_duracion :=
  "La duración de la reserva debe ser entre 15 minutos y 8 horas"%string.

(** [Reserva::new]: [ahora] is the first [Utc::now()] (used by the
    validation), [uuid] the value of [Uuid::new_v4()] and [creado] the second
    [Utc::now()] (stored as [created_at]). [errores] is the [Vec<String>] the
    body pushes to. *)
Definition new (ahora creado : Z) (uuid : string)
    (sala_id usuario_id : string) (fecha_inicio fecha_fin : Z)
    : Result Reserva ReservaError :=
  let errores : list string := [] in
  let errores := if is_empty (trim sala_id) then errores ++ [msg_sala_vacia] else errores in
  let errores := if is_empty (trim usuario_id) then errores ++ [msg_usuario_vacio] else errores in
  let errores := if fecha_inicio <? ahora then errores ++ [msg_inicio_pasado] else errores in
  let errores := if fecha_fin <? ahora then errores ++ [msg_fin_pasado] else errores in
  let errores := if fecha_fin <=? fecha_inicio then errores ++ [msg_orden] else errores in
  let duracion := fecha_fin - fecha_inicio in
  let min_duracion := Duration_minutes 15 in
  let max_duracion := Duration_hours 8 in
  let errores := if (duracion <? min_duracion) || (max_duracion <? duracion)
                 then errores ++ [msg_duracion] else errores in
  match errores with
  | _ :: _ => Err (Validacion errores)
  | [] => Ok {| id := uuid; sala_id := sala_id; usuario_id := usuario_id;
                fecha_inicio := fecha_inicio; fecha_fin := fecha_fin;
                estado := Activa; created_at := creado |}
  end.

(** [Reserva::from_existing] *)
Definition from_existing (id sala_id usuario_id : string) (fecha_inicio fecha_fin : Z)
    (estado : EstadoReserva) (created_at : Z) : Reserva :=
  {| id := id; sala_id := sala_id; usuario_id := usuario_id;
     fecha_inicio := fecha_inicio; fecha_fin := fecha_fin;
     estado := estado; created_at := created_at |}.

(** [Reserva::esta_activa] *)
Definition esta_activa (r : Reserva) : bool :=
  match estado r with Activa => true | _ => false end.

(** [Reserva::cancelar] ([&mut self]: returns the updated value). *)
Definition cancelar (r : Reserva) : Reserva :=
  {| id := id r; sala_id := sala_id r; usuario_id := usuario_id r;
     fecha_inicio := fecha_inicio r; fecha_fin := fecha_fin r;
     estado := Cancelada; created_at := created_at r |}.

(** [Reserva::completar] *)
Definition completar (r : Reserva) : Reserva :=
  {| id := id r; sala_id := sala_id r; usuario_id := usuario_id r;
     fecha_inicio := fecha_inicio r; fecha_fin := fecha_fin r;
     estado := Completada; created_at := created_at r |}.

(** [Reserva::se_solapa_con] *)
Definition se_solapa_con (self otra : Reserva) : bool :=
  if negb (String.eqb (sala_id self) (sala_id otra)) then false
  else if negb (esta_activa self) || negb (esta_activa otra) then false
  else (fecha_inicio self <? fecha_fin otra) && (fecha_inicio otra <? fecha_fin self).

(** [Reserva::duracion_minutos]: chrono's [TimeDelta::num_minutes] is
    [num_seconds() / 60], both rounding toward zero ([Z.quot]). *)
Definition duracion_minutos (r : Reserva) : Z :=
  Z.quot (Z.quot (fecha_fin r - fecha_inicio r) 1000000000) 60.

(** [impl fmt::Display for ReservaError]; [msgs.join("; ")] is
    [String.concat "; " msgs]. *)
Definition mostrar (e : ReservaError) : string :=
  match e with
  | SalaIdVacio => "El ID de sala no puede estar vacío"
  | UsuarioIdVacio => "El ID de usuario no puede estar vacío"
  | FechaInicioInvalida => "La fecha de inicio no puede ser en el pasado"
  | FechaFinInvalida => "La fecha de fin no puede ser en el pasado"
  | FechaFinAnteriorAInicio => "La fecha de fin debe ser posterior a la fecha de inicio"
  | DuracionInvalida => "La duración de la reserva debe ser entre 15 minutos y 8 horas"
  | NoEncontrada => "Reserva no encontrada"
  | ErrorRepositorio msg => "Error en repositorio: " ++ msg
  | Validacion msgs => "Errores de validación: " ++ String.concat "; " msgs
  end%string.

End Dominio.

Import Dominio.

(* ------------------------------------------------------------------ *)
(** ** Collaborators of the service: rooms and users *)

(** The fields of [salas_domain::Sala] ([sala.rs]). *)
Module Salas.
Record Sala := mkSala { id : string; nombre : string; capacidad : Z; activa : bool }.
(** [Sala::esta_activa] *)
Definition esta_activa (s : Sala) : bool := activa s.
End Salas.

(** The identifying fields of [usuarios_domain::Usuario]; [crear_reserva]
    only tests the user for presence. *)
Module Usuarios.
Record Usuario := mkUsuario { id : string; nombre : string; email : string }.
End Usuarios.

(* ------------------------------------------------------------------ *)
(** ** Effects: the [async fn ... -> Result<_, ReservaError>] of a
    repository or service, over the state [S] the repository owns. *)

Definition M (S A : Type) : Type := S -> Result A ReservaError * S.

#[global] Instance M_ret S : MRet (M S) := fun A a s => (Ok a, s).
#[global] Instance M_bind S : MBind (M S) := fun A B f m s =>
  match m s with
  | (Ok a, s') => f a s'
  | (Err e, s') => (Err e, s')
  end.
#[global] Instance M_throw S : MThrow ReservaError (M S) := fun A e s => (Err e, s).

(** The [?] operator on a [Result] computed outside the repository. *)
Definition lift_result {S A} (r : Result A ReservaError) : M S A :=
  match r with Ok a => mret a | Err e => mthrow e end.

(** [trait ReservaRepository] ([repository.rs]), the methods the service
    and the claims use. *)
Class ReservaRepository (S : Type) := {
  guardar : Reserva -> M S unit;
  obtener : string -> M S (option Reserva);
  listar_por_sala_y_rango : string -> Z -> Z -> M S (list Reserva);
  actualizar : Reserva -> M S unit;
  eliminar : string -> M S unit
}.

(** [HashMap::values()]: the order of a [HashMap] is unspecified; every
    use below is order independent. *)
Definition values (m : gmap string Reserva) : list Reserva := (map_to_list m).*2.

(** The filter closure shared by both implementations of
    [listar_por_sala_y_rango]. *)
Definition en_sala_y_rango (sala_id : string) (inicio fin : Z) (r : Reserva) : bool :=
  String.eqb (Dominio.sala_id r) sala_id && esta_activa r
  && (fecha_inicio r <? fin) && (inicio <? fecha_fin r).

(** *** [InMemoryReservaRepository] ([inmemory_repository.rs]) *)
Module InMemory.

Definition guardar (reserva : Reserva) : M (gmap string Reserva) unit :=
  fun reservas => (Ok tt, <[id reserva := reserva]> reservas).

Definition obtener (k : string) : M (gmap string Reserva) (option Reserva) :=
  fun reservas => (Ok (reservas !! k), reservas).

Definition listar_por_sala_y_rango (sala_id : string) (inicio fin : Z)
    : M (gmap string Reserva) (list Reserva) :=
  fun reservas => (Ok (List.filter (en_sala_y_rango sala_id inicio fin) (values reservas)), reservas).

Definition actualizar (reserva : Reserva) : M (gmap string Reserva) unit :=
  fun reservas =>
    match reservas !! id reserva with
    | Some _ => (Ok tt, <[id reserva := reserva]> reservas)
    | None => (Err NoEncontrada, reservas)
    end.

Definition eliminar (k : string) : M (gmap string Reserva) unit :=
  fun reservas =>
    match reservas !! k with
    | Some _ => (Ok tt, delete k reservas)
    | None => (Err NoEncontrada, reservas)
    end.

(** [listar]: [reservas.values().cloned().collect()]. *)
Definition listar : M (gmap string Reserva) (list Reserva) :=
  fun reservas => (Ok (values reservas), reservas).

Definition listar_por_sala (sala_id : string) : M (gmap string Reserva) (list Reserva) :=
  fun reservas =>
    (Ok (List.filter (fun r => String.eqb (Dominio.sala_id r) sala_id) (values reservas)),
     reservas).

Definition listar_por_usuario (usuario_id : string) : M (gmap string Reserva) (list Reserva) :=
  fun reservas =>
    (Ok (List.filter (fun r => String.eqb (Dominio.usuario_id r) usuario_id) (values reservas)),
     reservas).

(** [InMemoryReservaRepository::new] *)
Definition new : gmap string Reserva := ∅.

(** [InMemoryReservaRepository::with_reservas]: one [insert] per element,
    in order. *)
Definition with_reservas (reservas : list Reserva) : gmap string Reserva :=
  fold_left (fun map reserva => <[id reserva := reserva]> map) reservas ∅.

(** [clear] *)
Definition clear (reservas : gmap string Reserva) : gmap string Reserva := ∅.

(** [count]: [reservas.len()]. *)
Definition count (reservas : gmap string Reserva) : nat := size reservas.

#[global] Instance repo : ReservaRepository (gmap string Reserva) := {
  guardar := guardar;
  obtener := obtener;
  listar_por_sala_y_rango := listar_por_sala_y_rango;
  actualizar := actualizar;
  eliminar := eliminar
}.

End InMemory.

(** *** [FileReservaRepository] ([file_repository.rs])

    The file system is explicit and shared by every instance: the contents
    of each file (its bytes), and, per path, the io error [read_to_string]
    meets on an existing file it cannot read, the io error of
    [create_dir_all] on the file's parent, and how [fs::write] fails. The
    io errors are their [Display] text. serde is a pair of parameters:
    [to_json] is [serde_json::to_string_pretty] on [ReservasData] and
    [from_json] is [serde_json::from_str], each with its error's text. *)
Module File.

(** [struct ReservasData] *)
Record ReservasData := mkReservasData { reservas : gmap string Reserva }.

(** How [fs::write] fails on a path: [File::create] refuses the path (the
    file is left as it was), or [write_all] fails after [n] bytes, the file
    having been truncated by [File::create]. *)
Inductive FalloEscritura :=
  | AlCrear (e : string)
  | AlEscribir (n : nat) (e : string).

Record Fs := mkFs {
  archivos : gmap string string;
  error_lectura : gmap string string;
  error_directorio : gmap string string;
  error_escritura : gmap string FalloEscritura
}.

(** [pub struct FileReservaRepository]: the file path and the cache. *)
Record FileReservaRepository := mkRepo {
  file_path : string;
  cache : gmap string Reserva
}.

(** The state a [FileReservaRepository] method runs in: the instance and
    the file system it shares with every other instance. *)
Record FileState := mkState {
  instancia : FileReservaRepository;
  fs : Fs
}.

(** [FileReservaRepository::new]: an empty cache. *)
Definition new (file_path : string) : FileReservaRepository :=
  {| file_path := file_path; cache := ∅ |}.

(** UTF-8 well-formedness, as [std::str::from_utf8] checks it. *)
Definition continuacion (b : nat) : bool := (128 <=? b)%nat && (b <=? 191)%nat.

Fixpoint utf8_valido (s : string) : bool :=
  match s with
  | EmptyString => true
  | String c1 r1 =>
      let b1 := Ascii.nat_of_ascii c1 in
      if (b1 <? 128)%nat then utf8_valido r1 else
      match r1 with
      | EmptyString => false
      | String c2 r2 =>
          let b2 := Ascii.nat_of_ascii c2 in
          if (194 <=? b1)%nat && (b1 <=? 223)%nat then continuacion b2 && utf8_valido r2 else
          match r2 with
          | EmptyString => false
          | String c3 r3 =>
              let b3 := Ascii.nat_of_ascii c3 in
              if (224 <=? b1)%nat && (b1 <=? 239)%nat then
                (if (b1 =? 224)%nat then (160 <=? b2)%nat && (b2 <=? 191)%nat
                 else if (b1 =? 237)%nat then (128 <=? b2)%nat && (b2 <=? 159)%nat
                 else continuacion b2) && continuacion b3 && utf8_valido r3
              else
              match r3 with
              | EmptyString => false
              | String c4 r4 =>
                  (240 <=? b1)%nat && (b1 <=? 244)%nat &&
                  (if (b1 =? 240)%nat then (144 <=? b2)%nat && (b2 <=? 191)%nat
                   else if (b1 =? 244)%nat then (128 <=? b2)%nat && (b2 <=? 143)%nat
                   else continuacion b2) &&
                  continuacion b3 && continuacion (Ascii.nat_of_ascii c4) && utf8_valido r4
              end
          end
      end
  end.

(** The [Display] of the io errors [read_to_string] makes itself. *)
Definition msg_no_existe := "No such file or directory (os error 2)"%string.
Definition msg_utf8_invalido := "stream did not contain valid UTF-8"%string.

(** [Path::exists] *)
Definition exists_ (p : string) (f : Fs) : bool :=
  match archivos f !! p with Some _ => true | None => false end.

(** [fs::read_to_string] *)
Definition read_to_string (p : string) (f : Fs) : Result string string :=
  match error_lectura f !! p with
  | Some e => Err e
  | None =>
      match archivos f !! p with
      | None => Err msg_no_existe
      | Some contents => if utf8_valido contents then Ok contents else Err msg_utf8_invalido
      end
  end.

Section Impl.
Context (to_json : ReservasData -> Result string string)
        (from_json : string -> Result ReservasData string).

Definition set_cache (c : gmap string Reserva) (st : FileState) : FileState :=
  mkState (mkRepo (file_path (instancia st)) c) (fs st).

Definition con_archivo (p contents : string) (st : FileState) : FileState :=
  mkState (instancia st)
    (mkFs (<[p := contents]> (archivos (fs st))) (error_lectura (fs st))
          (error_directorio (fs st)) (error_escritura (fs st))).

(** [fs::write] with its [map_err]. *)
Definition fs_write (p : string) (contents : string) : M FileState unit :=
  fun st =>
    match error_escritura (fs st) !! p with
    | None => (Ok tt, con_archivo p contents st)
    | Some (AlCrear e) => (Err (ErrorRepositorio ("Error al escribir archivo: " ++ e)), st)
    | Some (AlEscribir n e) =>
        (Err (ErrorRepositorio ("Error al escribir archivo: " ++ e)),
         con_archivo p (String.substring 0 n contents) st)
    end.

(** [load_from_file]: a missing file leaves the cache as it is. *)
Definition load_from_file : M FileState unit :=
  fun st =>
    let p := file_path (instancia st) in
    if negb (exists_ p (fs st)) then (Ok tt, st) else
    match read_to_string p (fs st) with
    | Err e => (Err (ErrorRepositorio ("Error al leer archivo: " ++ e)), st)
    | Ok contents =>
        match from_json contents with
        | Err e => (Err (ErrorRepositorio ("Error al parsear JSON: " ++ e)), st)
        | Ok data => (Ok tt, set_cache (reservas data) st)
        end
    end.

(** [save_to_file]: [create_dir_all] on the parent, then the whole cache,
    serialised, written over the file. *)
Definition save_to_file : M FileState unit :=
  fun st =>
    let p := file_path (instancia st) in
    match error_directorio (fs st) !! p with
    | Some e => (Err (ErrorRepositorio ("Error al crear directorio: " ++ e)), st)
    | None =>
        let data := {| reservas := cache (instancia st) |} in
        match to_json data with
        | Err e => (Err (ErrorRepositorio ("Error al serializar JSON: " ++ e)), st)
        | Ok json => fs_write p json st
        end
    end.

(** [init] *)
Definition init : M FileState unit := load_from_file.

Definition guardar (reserva : Reserva) : M FileState unit :=
  fun st =>
    let st := set_cache (<[id reserva := reserva]> (cache (instancia st))) st in
    (save_to_file;; mret tt) st.

Definition obtener (k : string) : M FileState (option Reserva) :=
  fun st => (Ok (cache (instancia st) !! k), st).

Definition listar_por_sala_y_rango (sala_id : string) (inicio fin : Z)
    : M FileState (list Reserva) :=
  fun st => (Ok (List.filter (en_sala_y_rango sala_id inicio fin)
                   (values (cache (instancia st)))), st).

Definition actualizar (reserva : Reserva) : M FileState unit :=
  fun st =>
    match cache (instancia st) !! id reserva with
    | Some _ =>
        let st := set_cache (<[id reserva := reserva]> (cache (instancia st))) st in
        (save_to_file;; mret tt) st
    | None => (Err NoEncontrada, st)
    end.

Definition eliminar (k : string) : M FileState unit :=
  fun st =>
    match cache (instancia st) !! k with
    | Some _ =>
        let st := set_cache (delete k (cache (instancia st))) st in
        (save_to_file;; mret tt) st
    | None => (Err NoEncontrada, st)
    end.

Definition repo : ReservaRepository FileState :=
  Build_ReservaRepository _ guardar obtener listar_por_sala_y_rango actualizar eliminar.

End Impl.
End File.

(* ------------------------------------------------------------------ *)
(** ** [ReservaServiceImpl] ([service.rs]), generic over the repository.

    The room and user repositories are read-only lookups here; their error
    is the [Display] text of [SalaError] / [UsuarioError]. *)
Module Servicio.

Section Servicio.
Context {S : Type} `{!ReservaRepository S}.
Context (sala_obtener : string -> Result (option Salas.Sala) string)
        (usuario_obtener : string -> Result (option Usuarios.Usuario) string).

(** [verificar_disponibilidad]; [ahora] is the [Utc::now()] stored in the
    temporary reservation. *)
Definition verificar_disponibilidad (ahora : Z) (sala_id : string) (fecha_inicio fecha_fin : Z)
    : M S bool :=
  reservas ← listar_por_sala_y_rango sala_id fecha_inicio fecha_fin;
  let reserva_temporal :=
    from_existing "temp" sala_id "temp_user" fecha_inicio fecha_fin Activa ahora in
  let hay_conflicto := existsb (fun r => se_solapa_con reserva_temporal r) reservas in
  mret (negb hay_conflicto).

Definition msg_sala_no_existe := "La sala no existe"%string.
Definition msg_sala_inactiva := "La sala no está activa"%string.
Definition msg_usuario_no_existe := "El usuario no existe"%string.
Definition msg_no_disponible := "La sala no está disponible en el horario solicitado"%string.
Definition msg_cancelar := "Solo se pueden cancelar reservas activas"%string.
Definition msg_completar := "Solo se pueden completar reservas activas"%string.

(** [crear_reserva]; [ahora] and [creado] are the clock reads of
    [Reserva::new], [uuid] its identifier, [ahora_temp] the clock read of
    [verificar_disponibilidad]. *)
Definition crear_reserva (ahora creado ahora_temp : Z) (uuid : string)
    (sala_id usuario_id : string) (fecha_inicio fecha_fin : Z) : M S Reserva :=
  sala ← match sala_obtener sala_id with
         | Err e => mthrow (ErrorRepositorio ("Error al verificar sala: " ++ e))
         | Ok None => mthrow (Validacion [msg_sala_no_existe])
         | Ok (Some s) => mret s
         end;
  if negb (Salas.esta_activa sala) then mthrow (Validacion [msg_sala_inactiva]) else
  _ ← match usuario_obtener usuario_id with
      | Err e => mthrow (ErrorRepositorio ("Error al verificar usuario: " ++ e))
      | Ok None => mthrow (Validacion [msg_usuario_no_existe])
      | Ok (Some u) => mret u
      end;
  reserva ← lift_result (new ahora creado uuid sala_id usuario_id fecha_inicio fecha_fin);
  disponible ← verificar_disponibilidad ahora_temp sala_id fecha_inicio fecha_fin;
  if negb disponible then mthrow (Validacion [msg_no_disponible]) else
  guardar reserva;;
  mret reserva.

(** The part of [crear_reserva] that precedes its [guardar]: the
    validations, [Reserva::new] and the availability check. Each
    repository method takes the repository's lock for its own duration
    only, so a concurrent request may run between this part and the
    [guardar] that follows it. *)
Definition crear_reserva_previo (ahora creado ahora_temp : Z) (uuid : string)
    (sala_id usuario_id : string) (fecha_inicio fecha_fin : Z) : M S Reserva :=
  sala ← match sala_obtener sala_id with
         | Err e => mthrow (ErrorRepositorio ("Error al verificar sala: " ++ e))
         | Ok None => mthrow (Validacion [msg_sala_no_existe])
         | Ok (Some s) => mret s
         end;
  if negb (Salas.esta_activa sala) then mthrow (Validacion [msg_sala_inactiva]) else
  _ ← match usuario_obtener usuario_id with
      | Err e => mthrow (ErrorRepositorio ("Error al verificar usuario: " ++ e))
      | Ok None => mthrow (Validacion [msg_usuario_no_existe])
      | Ok (Some u) => mret u
      end;
  reserva ← lift_result (new ahora creado uuid sala_id usuario_id fecha_inicio fecha_fin);
  disponible ← verificar_disponibilidad ahora_temp sala_id fecha_inicio fecha_fin;
  if negb disponible then mthrow (Validacion [msg_no_disponible]) else
  mret reserva.

(** [cancelar_reserva] *)
Definition cancelar_reserva (k : string) : M S Reserva :=
  o ← obtener k;
  match o with
  | None => mthrow NoEncontrada
  | Some reserva =>
      if negb (esta_activa reserva) then mthrow (Validacion [msg_cancelar]) else
      let reserva := cancelar reserva in
      actualizar reserva;;
      mret reserva
  end.

(** [completar_reserva] *)
Definition completar_reserva (k : string) : M S Reserva :=
  o ← obtener k;
  match o with
  | None => mthrow NoEncontrada
  | Some reserva =>
      if negb (esta_activa reserva) then mthrow (Validacion [msg_completar]) else
      let reserva := completar reserva in
      actualizar reserva;;
      mret reserva
  end.

(** [obtener_reserva]: the repository's [obtener]. *)
Definition obtener_reserva (k : string) : M S (option Reserva) := obtener k.

End Servicio.
End Servicio.

(* ------------------------------------------------------------------ *)
(** ** [ReservaGrpcServer] ([grpc/src/server.rs]): error mapping of the
    handlers that take an id.

    [request.require_auth_user()] is the argument [auth] (the JWT check
    lives in [usuarios_auth]). The response payload is the [Reserva] that
    [reserva_to_proto] converts; the conversion itself (RFC 3339 text and
    the enum numbers of the [.proto] file) is not modelled. *)
Module Grpc.

(** The [tonic::Code]s the handlers produce. *)
Inductive Code := InvalidArgument | NotFound | Internal | Unauthenticated.

(** [tonic::Status] *)
Record Status := mkStatus { code : Code; message : string }.

Definition internal (m : string) : Status := mkStatus Internal m.
Definition not_found (m : string) : Status := mkStatus NotFound m.

(** [AuthUser] ([grpc/src/auth.rs]); the handlers only test for it. *)
Record AuthUser := mkAuthUser { user_id : string; email : string }.

Section Handlers.
Context {S : Type} `{!ReservaRepository S}.

(** The body every handler shares: [?] on the authentication, then the
    service call with its error turned into [Status::internal]. *)
Definition con_servicio {A} (auth : Result AuthUser Status) (prefijo : string)
    (llamada : M S A) : S -> Result A Status * S :=
  fun st =>
    match auth with
    | Err s => (Err s, st)
    | Ok _ =>
        match llamada st with
        | (Ok a, st') => (Ok a, st')
        | (Err e, st') => (Err (internal (prefijo ++ mostrar e)), st')
        end
    end.

(** [obtener_reserva] *)
Definition obtener_reserva (auth : Result AuthUser Status) (k : string)
    : S -> Result Reserva Status * S :=
  fun st =>
    match con_servicio auth "Error al obtener reserva: " (Servicio.obtener_reserva k) st with
    | (Ok (Some r), st') => (Ok r, st')
    | (Ok None, st') => (Err (not_found "Reserva no encontrada"), st')
    | (Err s, st') => (Err s, st')
    end.

(** [cancelar_reserva] *)
Definition cancelar_reserva (auth : Result AuthUser Status) (k : string)
    : S -> Result Reserva Status * S :=
  con_servicio auth "Error al cancelar reserva: " (Servicio.cancelar_reserva k).

(** [completar_reserva] *)
Definition completar_reserva (auth : Result AuthUser Status) (k : string)
    : S -> Result Reserva Status * S :=
  con_servicio auth "Error al completar reserva: " (Servicio.completar_reserva k).

End Handlers.
End Grpc.

(* ------------------------------------------------------------------ *)
(** ** Store invariant

    Every map the repositories build keys a reservation by its own [id]
    ([guardar], [actualizar] and [with_reservas] insert under
    [reserva.id()]). *)
Definition claves_coherentes (m : gmap string Reserva) : Prop :=
  map_Forall (fun k r => id r = k) m.

(** No two distinct entries of a store overlap ([se_solapa_con]): the
    guarantee [crear_reserva]'s availability check is there to keep. *)
Definition sin_solapamientos (m : gmap string Reserva) : Prop :=
  forall k1 k2 r1 r2, k1 <> k2 -> m !! k1 = Some r1 -> m !! k2 = Some r2 ->
    se_solapa_con r1 r2 = false.

(** A call on the file-backed repository against the same call on the
    in-memory repository run on its cache: the new cache is the new map,
    the path is kept, and the result is the in-memory one, except that a
    success turns into the error [save_to_file] reports when it saves the
    new cache. *)
Definition refleja {A : Type} (to_json : File.ReservasData -> Result string string)
    (st : File.FileState)
    (archivo : Result A ReservaError * File.FileState)
    (memoria : Result A ReservaError * gmap string Reserva) : Prop :=
  File.cache (File.instancia (snd archivo)) = snd memoria /\
  File.file_path (File.instancia (snd archivo)) = File.file_path (File.instancia st) /\
  fst archivo = match fst memoria with
                | Ok a =>
                    match fst (File.save_to_file to_json (File.set_cache (snd memoria) st)) with
                    | Ok _ => Ok a
                    | Err e => Err e
                    end
                | Err e => Err e
                end.

(** What saving the cache [c] over the file system [f] at [path] does,
    step by step as [save_to_file] reads: the result [res] and the files
    [archivos'] afterwards. *)
Definition efecto_guardado (to_json : File.ReservasData -> Result string string)
    (f : File.Fs) (path : string) (c : gmap string Reserva)
    (res : Result unit ReservaError) (archivos' : gmap string string) : Prop :=
  match File.error_directorio f !! path with
  | Some e => res = Err (ErrorRepositorio ("Error al crear directorio: " ++ e)) /\
              archivos' = File.archivos f
  | None =>
      match to_json {| File.reservas := c |} with
      | Err e => res = Err (ErrorRepositorio ("Error al serializar JSON: " ++ e)) /\
                 archivos' = File.archivos f
      | Ok json =>
          match File.error_escritura f !! path with
          | None => res = Ok tt /\ archivos' = <[path := json]> (File.archivos f)
          | Some (File.AlCrear e) =>
              res = Err (ErrorRepositorio ("Error al escribir archivo: " ++ e)) /\
              archivos' = File.archivos f
          | Some (File.AlEscribir n e) =>
              res = Err (ErrorRepositorio ("Error al escribir archivo: " ++ e)) /\
              archivos' = <[path := String.substring 0 n json]> (File.archivos f)
          end
      end
  end%string.

(* ------------------------------------------------------------------ *)
(** ** Small runs *)

Definition hora (h : Z) : Z := Duration_hours h.

Definition r10_12 : Reserva :=
  from_existing "r1" "R1" "U1" (hora 10) (hora 12) Activa 0.

Definition repo_r1 : gmap string Reserva := <[ "r1" := r10_12 ]> ∅.

Definition usuario_u1 : Usuarios.Usuario := Usuarios.mkUsuario "U1" "Ana" "ana@example.com".
Definition sala_r1 : Salas.Sala := Salas.mkSala "R1" "Sala 1" 10 true.

(** io errors as [Display] shows them. *)
Definition permiso_denegado := "Permission denied (os error 13)"%string.
Definition disco_lleno := "No space left on device (os error 28)"%string.

(** A file system with no files and no failures. *)
Definition fs_vacio : File.Fs := File.mkFs ∅ ∅ ∅ ∅.

(** A repository holding [r10_12] over a file that cannot be created or
    written, and an empty one over a path where everything succeeds. *)
Definition estado_solo_lectura : File.FileState :=
  File.mkState (File.mkRepo "data/reservas.json" repo_r1)
    (File.mkFs ∅ ∅ ∅ {["data/reservas.json" := File.AlCrear permiso_denegado]}).
Definition estado_escribible : File.FileState :=
  File.mkState (File.new "data/reservas.json") fs_vacio.
(** A disk that fills up after the first three bytes of a write. *)
Definition estado_disco_lleno : File.FileState :=
  File.mkState (File.mkRepo "data/reservas.json" repo_r1)
    (File.mkFs {["data/reservas.json" := "{ reservas: r1 }"]} ∅ ∅
       {["data/reservas.json" := File.AlEscribir 3 disco_lleno]}).

(** A file the process may write but not read (mode 0200). *)
Definition estado_sin_lectura : File.FileState :=
  File.mkState (File.new "data/reservas.json")
    (File.mkFs ∅ {["data/reservas.json" := permiso_denegado]} ∅ ∅).

(** Stand-ins for serde on one document: the one holding [r10_12]. *)
Definition doc_r1 : string := "{ reservas: r1 }".
Definition to_json_r1 (d : File.ReservasData) : Result string string := Ok doc_r1.
Definition from_json_r1 (s : string) : Result File.ReservasData string :=
  if String.eqb s doc_r1 then Ok {| File.reservas := repo_r1 |}
  else Err "expected value at line 1 column 1"%string.

Example disponibilidad_11_13 :
  fst (Servicio.verificar_disponibilidad 0 "R1" (hora 11) (hora 13) repo_r1) = Ok false.
Proof. vm_compute. reflexivity. Qed.

Example cancelar_dos_veces :
  let '(r1, s1) := Servicio.cancelar_reserva "r1" repo_r1 in
  (r1, fst (Servicio.cancelar_reserva "r1" s1))
  = (Ok (cancelar r10_12), Err (Validacion [Servicio.msg_cancelar])).
Proof. vm_compute. reflexivity. Qed.

(* ------------------------------------------------------------------ *)
(** ** Entity properties ([reserva.rs]) *)

Lemma esta_activa_true (r : Reserva) : esta_activa r = true <-> estado r = Activa.
Proof. unfold esta_activa. destruct (estado r); split; congruence. Qed.

Lemma se_solapa_con_true (a b : Reserva) :
  se_solapa_con a b = true <->
  sala_id a = sala_id b /\ estado a = Activa /\ estado b = Activa /\
  fecha_inicio a < fecha_fin b /\ fecha_inicio b < fecha_fin a.
Proof.
  unfold se_solapa_con. rewrite <- !esta_activa_true.
  destruct (String.eqb_spec (sala_id a) (sala_id b)); simpl; [|intuition congruence].
  destruct (esta_activa a), (esta_activa b); simpl;
    rewrite ?andb_true_iff, ?Z.ltb_lt; intuition congruence.
Qed.

(** C4: [a.se_solapa_con(b)] holds exactly when both are on the same room,
    both are [Activa] and the half-open intervals intersect; hence it is
    false across rooms and false when either one is not [Activa]. *)
Theorem se_solapa_con_caracterizacion (a b : Reserva) :
  (se_solapa_con a b = true <->
     sala_id a = sala_id b /\ estado a = Activa /\ estado b = Activa /\
     fecha_inicio a < fecha_fin b /\ fecha_inicio b < fecha_fin a) /\
  (sala_id a <> sala_id b -> se_solapa_con a b = false) /\
  (estado a <> Activa \/ estado b <> Activa -> se_solapa_con a b = false).
Proof.
  unfold se_solapa_con.
  destruct (String.eqb_spec (sala_id a) (sala_id b)) as [Hs|Hs]; simpl;
  destruct (esta_activa a) eqn:Ea; destruct (esta_activa b) eqn:Eb; simpl;
  rewrite <- ?esta_activa_true;
  repeat split; intros; rewrite ?andb_true_iff, ?Z.ltb_lt in *;
  intuition congruence.
Qed.

(** C8: the overlap predicate is symmetric. *)
Theorem se_solapa_con_simetrica (a b : Reserva) : se_solapa_con a b = se_solapa_con b a.
Proof.
  unfold se_solapa_con.
  destruct (String.eqb_spec (sala_id a) (sala_id b)) as [Hs|Hs];
  destruct (String.eqb_spec (sala_id b) (sala_id a)); try congruence; simpl; [|reflexivity].
  destruct (esta_activa a), (esta_activa b); simpl; try reflexivity.
  apply andb_comm.
Qed.

(** C10: [cancelar] and [completar] overwrite [estado] whatever its value,
    and leave every other field as it was. *)
Theorem cancelar_completar_incondicionales (r : Reserva) :
  estado (cancelar r) = Cancelada /\ estado (completar r) = Completada /\
  estado (cancelar (completar r)) = Cancelada /\
  estado (completar (cancelar r)) = Completada /\
  (forall f : Reserva -> Reserva, (f = cancelar \/ f = completar) ->
     id (f r) = id r /\ sala_id (f r) = sala_id r /\ usuario_id (f r) = usuario_id r /\
     fecha_inicio (f r) = fecha_inicio r /\ fecha_fin (f r) = fecha_fin r /\
     created_at (f r) = created_at r).
Proof.
  do 4 (split; [reflexivity|]).
  intros f [-> | ->]; repeat split.
Qed.

Ltac destruct_reglas :=
  repeat match goal with
  | |- context [if ?b then _ else _] =>
      lazymatch type of b with
      | bool =>
          lazymatch b with
          | context [if _ then _ else _] => fail
          | _ => let E := fresh "E" in destruct b eqn:E
          end
      end
  end.

(** C5: [Reserva::new] collects the message of every rule that fails into
    one [Validacion] list; with both identifiers empty and both instants in
    the past it reports at least four messages. *)
Theorem new_reporta_todas (ahora creado : Z) (uuid sala usuario : string) (ini fin : Z) :
  let duracion_fuera :=
    (fin - ini <? Duration_minutes 15) || (Duration_hours 8 <? fin - ini) in
  ((is_empty (trim sala) || is_empty (trim usuario) || (ini <? ahora) || (fin <? ahora)
    || (fin <=? ini) || duracion_fuera) = true ->
   exists errs, new ahora creado uuid sala usuario ini fin = Err (Validacion errs) /\
     (is_empty (trim sala) = true -> In msg_sala_vacia errs) /\
     (is_empty (trim usuario) = true -> In msg_usuario_vacio errs) /\
     ((ini <? ahora) = true -> In msg_inicio_pasado errs) /\
     ((fin <? ahora) = true -> In msg_fin_pasado errs) /\
     ((fin <=? ini) = true -> In msg_orden errs) /\
     (duracion_fuera = true -> In msg_duracion errs)) /\
  (ini < ahora -> fin < ahora ->
   exists errs, new ahora creado uuid "" "" ini fin = Err (Validacion errs) /\
     In msg_sala_vacia errs /\ In msg_usuario_vacio errs /\
     In msg_inicio_pasado errs /\ In msg_fin_pasado errs /\ (4 <= length errs)%nat).
Proof.
  intros dur. split.
  - unfold new, dur. intros H.
    destruct_reglas; simpl in H; try discriminate;
    eexists; (split; [reflexivity|]); simpl; intuition (try discriminate).
  - intros Hi Hf. unfold new.
    replace (ini <? ahora) with true by (symmetry; apply Z.ltb_lt; lia).
    replace (fin <? ahora) with true by (symmetry; apply Z.ltb_lt; lia).
    simpl. destruct_reglas; eexists; (split; [reflexivity|]); simpl;
    repeat split; (try lia); tauto.
Qed.

(** C6: [Reserva::new] accepts only durations in [15 minutes, 8 hours];
    with the other fields valid every duration in that closed range (both
    ends included) is accepted, every duration outside it is rejected with
    the duration message, and a 10-minute reservation starting in one hour
    is rejected with it. *)
Theorem new_duracion (ahora creado : Z) (uuid sala usuario : string) (ini fin : Z) :
  (forall r, new ahora creado uuid sala usuario ini fin = Ok r ->
     Duration_minutes 15 <= fin - ini <= Duration_hours 8) /\
  (is_empty (trim sala) = false -> is_empty (trim usuario) = false -> ahora <= ini ->
   Duration_minutes 15 <= fin - ini <= Duration_hours 8 ->
   new ahora creado uuid sala usuario ini fin =
     Ok (from_existing uuid sala usuario ini fin Activa creado)) /\
  (fin - ini < Duration_minutes 15 \/ Duration_hours 8 < fin - ini ->
   exists errs, new ahora creado uuid sala usuario ini fin = Err (Validacion errs) /\
     In msg_duracion errs) /\
  (exists errs,
     new ahora creado uuid sala usuario (ahora + Duration_hours 1)
       (ahora + Duration_hours 1 + Duration_minutes 10) = Err (Validacion errs) /\
     In msg_duracion errs).
Proof.
  assert (Hdur : forall i f, f - i < Duration_minutes 15 \/ Duration_hours 8 < f - i ->
     exists errs, new ahora creado uuid sala usuario i f = Err (Validacion errs) /\
       In msg_duracion errs).
  { intros i f Hif. unfold new.
    replace ((f - i <? Duration_minutes 15) || (Duration_hours 8 <? f - i)) with true
      by (symmetry; apply orb_true_iff; rewrite !Z.ltb_lt; exact Hif).
    destruct_reglas; eexists; (split; [reflexivity|]); simpl; tauto. }
  split; [|split; [|split]].
  - intros r. unfold new.
    destruct ((fin - ini <? Duration_minutes 15) || (Duration_hours 8 <? fin - ini)) eqn:E.
    + destruct_reglas; simpl; discriminate.
    + intros _. apply orb_false_iff in E as [E1 E2].
      apply Z.ltb_ge in E1, E2. lia.
  - intros Hs Hu Hi Hd. unfold Duration_minutes, Duration_hours in *. unfold new.
    rewrite Hs, Hu.
    replace (ini <? ahora) with false by (symmetry; apply Z.ltb_ge; lia).
    replace (fin <? ahora) with false by (symmetry; apply Z.ltb_ge; lia).
    replace (fin <=? ini) with false by (symmetry; apply Z.leb_gt; lia).
    replace (fin - ini <? Duration_minutes 15) with false
      by (symmetry; apply Z.ltb_ge; unfold Duration_minutes; lia).
    replace (Duration_hours 8 <? fin - ini) with false
      by (symmetry; apply Z.ltb_ge; unfold Duration_hours; lia).
    reflexivity.
  - apply Hdur.
  - apply Hdur. left. unfold Duration_minutes. lia.
Qed.

(* ------------------------------------------------------------------ *)
(** ** Availability ([verificar_disponibilidad]) on the in-memory repository *)

Lemma existsb_filter {A} (f p : A -> bool) (l : list A) :
  existsb f (List.filter p l) = true <-> exists x, In x l /\ p x = true /\ f x = true.
Proof.
  rewrite existsb_exists. split.
  - intros (x & Hx & Hf). apply filter_In in Hx as [Hx Hp]. eauto.
  - intros (x & Hx & Hp & Hf). exists x. rewrite filter_In. auto.
Qed.

Lemma In_values (m : gmap string Reserva) (r : Reserva) :
  In r (values m) <-> exists k, m !! k = Some r.
Proof.
  unfold values. rewrite <- list_elem_of_In, list_elem_of_fmap. split.
  - intros ([k r'] & -> & Hk). apply elem_of_map_to_list in Hk. eauto.
  - intros (k & Hk). exists (k, r). split; [done|]. by apply elem_of_map_to_list.
Qed.

Lemma verificar_disponibilidad_inmemory (ahora : Z) (sala : string) (ini fin : Z)
    (m : gmap string Reserva) :
  Servicio.verificar_disponibilidad ahora sala ini fin m =
  (Ok (negb (existsb (se_solapa_con (from_existing "temp" sala "temp_user" ini fin Activa ahora))
               (List.filter (en_sala_y_rango sala ini fin) (values m)))), m).
Proof. reflexivity. Qed.

Lemma verificar_disponibilidad_inmemory_spec (ahora : Z) (sala : string) (ini fin : Z)
    (m : gmap string Reserva) :
  exists b, Servicio.verificar_disponibilidad ahora sala ini fin m = (Ok b, m) /\
    (b = false <-> exists k r, m !! k = Some r /\ sala_id r = sala /\ estado r = Activa /\
                     fecha_inicio r < fin /\ ini < fecha_fin r).
Proof.
  rewrite verificar_disponibilidad_inmemory. eexists. split; [reflexivity|].
  rewrite negb_false_iff, existsb_filter. split.
  - intros (r & Hin & Hp & Ho). apply In_values in Hin as [k Hk].
    unfold en_sala_y_rango in Hp. rewrite !andb_true_iff, String.eqb_eq, !Z.ltb_lt,
      esta_activa_true in Hp.
    exists k, r. intuition.
  - intros (k & r & Hk & Hs & Ha & Hi & Hf). exists r. split; [apply In_values; eauto|].
    split.
    + unfold en_sala_y_rango. rewrite !andb_true_iff, String.eqb_eq, !Z.ltb_lt,
        esta_activa_true. auto.
    + apply se_solapa_con_true. simpl. auto.
Qed.

(** On a store with one reservation [r] under key [k], the availability
    answer is [false] exactly when [r] is [Activa] on [sala] and meets
    [ini, fin). *)
Lemma verificar_disponibilidad_una (ahora : Z) (sala : string) (ini fin : Z) (k : string)
    (r : Reserva) :
  fst (Servicio.verificar_disponibilidad ahora sala ini fin (<[k := r]> ∅)) =
  Ok (negb (bool_decide (sala_id r = sala /\ estado r = Activa /\
                         fecha_inicio r < fin /\ ini < fecha_fin r))).
Proof.
  destruct (verificar_disponibilidad_inmemory_spec ahora sala ini fin (<[k := r]> ∅))
    as (b & -> & Hb). simpl. f_equal.
  case_bool_decide as Hc; simpl.
  - apply Hb. exists k, r. rewrite lookup_insert_eq. auto.
  - destruct b; [reflexivity|]. exfalso. apply Hc.
    destruct (proj1 Hb eq_refl) as (k' & r' & Hk' & Hr').
    rewrite lookup_insert in Hk'. case_decide; simplify_map_eq. auto.
Qed.

(** C1: on the in-memory repository, [verificar_disponibilidad] leaves the
    store as it is and answers [false] exactly when a stored [Activa]
    reservation of the room intersects [ini, fin) (half-open), [true]
    otherwise; with one [Activa] reservation from 10:00 to 12:00 of a day
    [d], 11:00-13:00 is unavailable and 12:00-13:00 and 09:00-10:00 are
    available. *)
Theorem verificar_disponibilidad_correcta (ahora : Z) (sala : string) (ini fin : Z)
    (m : gmap string Reserva) :
  (exists b, Servicio.verificar_disponibilidad ahora sala ini fin m = (Ok b, m) /\
     (b = false <-> exists k r, m !! k = Some r /\ sala_id r = sala /\ estado r = Activa /\
                      fecha_inicio r < fin /\ ini < fecha_fin r)) /\
  (forall (d : Z) (k u : string) (c : Z),
     let r := from_existing k sala u (d + Duration_hours 10) (d + Duration_hours 12) Activa c in
     let m1 := <[k := r]> (∅ : gmap string Reserva) in
     fst (Servicio.verificar_disponibilidad ahora sala
            (d + Duration_hours 11) (d + Duration_hours 13) m1) = Ok false /\
     fst (Servicio.verificar_disponibilidad ahora sala
            (d + Duration_hours 12) (d + Duration_hours 13) m1) = Ok true /\
     fst (Servicio.verificar_disponibilidad ahora sala
            (d + Duration_hours 9) (d + Duration_hours 10) m1) = Ok true).
Proof.
  split; [apply verificar_disponibilidad_inmemory_spec|].
  intros d k u c. cbv zeta. rewrite !verificar_disponibilidad_una. simpl.
  unfold Duration_hours.
  repeat split; f_equal; case_bool_decide as H; simpl; auto; intuition lia.
Qed.

(* ------------------------------------------------------------------ *)
(** ** Lifecycle operations of the service on the in-memory repository *)

Lemma claves_coherentes_vacio : claves_coherentes ∅.
Proof. apply map_Forall_empty. Qed.

Lemma claves_coherentes_insert (m : gmap string Reserva) (r : Reserva) :
  claves_coherentes m -> claves_coherentes (<[id r := r]> m).
Proof. intros Hm. by apply map_Forall_insert_2. Qed.

(** The invariant holds of every store the in-memory repository reaches. *)
Lemma claves_coherentes_inmemory (m : gmap string Reserva) (r : Reserva) (k : string) :
  claves_coherentes m ->
  claves_coherentes (snd (InMemory.guardar r m)) /\
  claves_coherentes (snd (InMemory.actualizar r m)) /\
  claves_coherentes (snd (InMemory.eliminar k m)).
Proof.
  intros Hm. unfold InMemory.guardar, InMemory.actualizar, InMemory.eliminar.
  repeat split; simpl.
  - by apply claves_coherentes_insert.
  - destruct (m !! id r); simpl; [by apply claves_coherentes_insert | done].
  - destruct (m !! k); simpl; [by apply map_Forall_delete | done].
Qed.

Lemma cancelar_reserva_inmemory (m : gmap string Reserva) (k : string) :
  Servicio.cancelar_reserva k m =
  match m !! k with
  | None => (Err NoEncontrada, m)
  | Some r =>
      if negb (esta_activa r) then (Err (Validacion [Servicio.msg_cancelar]), m)
      else match m !! id r with
           | Some _ => (Ok (cancelar r), <[id r := cancelar r]> m)
           | None => (Err NoEncontrada, m)
           end
  end.
Proof.
  unfold Servicio.cancelar_reserva. cbv [mbind M_bind mret M_ret mthrow M_throw obtener
    actualizar InMemory.repo InMemory.obtener InMemory.actualizar].
  destruct (m !! k) as [r|]; [|reflexivity].
  destruct (esta_activa r); simpl; [|reflexivity].
  destruct (m !! id r); reflexivity.
Qed.

Lemma completar_reserva_inmemory (m : gmap string Reserva) (k : string) :
  Servicio.completar_reserva k m =
  match m !! k with
  | None => (Err NoEncontrada, m)
  | Some r =>
      if negb (esta_activa r) then (Err (Validacion [Servicio.msg_completar]), m)
      else match m !! id r with
           | Some _ => (Ok (completar r), <[id r := completar r]> m)
           | None => (Err NoEncontrada, m)
           end
  end.
Proof.
  unfold Servicio.completar_reserva. cbv [mbind M_bind mret M_ret mthrow M_throw obtener
    actualizar InMemory.repo InMemory.obtener InMemory.actualizar].
  destruct (m !! k) as [r|]; [|reflexivity].
  destruct (esta_activa r); simpl; [|reflexivity].
  destruct (m !! id r); reflexivity.
Qed.

(** C3: on the in-memory repository (whose stores key every reservation by
    its [id]), [cancelar_reserva k] fails with [NoEncontrada] exactly when
    [k] is absent, fails with a [Validacion] error (store unchanged) exactly
    when the reservation is not [Activa], and otherwise stores and returns
    the reservation with [estado = Cancelada]; [completar_reserva] likewise
    with [Completada]; after either transition a second cancel or complete
    fails with a [Validacion] error. *)
Theorem cancelar_completar_reserva (m : gmap string Reserva) (k : string)
    (Hm : claves_coherentes m) :
  (m !! k = None ->
     Servicio.cancelar_reserva k m = (Err NoEncontrada, m) /\
     Servicio.completar_reserva k m = (Err NoEncontrada, m)) /\
  (forall r, m !! k = Some r -> estado r <> Activa ->
     Servicio.cancelar_reserva k m = (Err (Validacion [Servicio.msg_cancelar]), m) /\
     Servicio.completar_reserva k m = (Err (Validacion [Servicio.msg_completar]), m)) /\
  (forall r, m !! k = Some r -> estado r = Activa ->
     Servicio.cancelar_reserva k m = (Ok (cancelar r), <[k := cancelar r]> m) /\
     estado (cancelar r) = Cancelada /\
     Servicio.completar_reserva k m = (Ok (completar r), <[k := completar r]> m) /\
     estado (completar r) = Completada) /\
  (forall m', m' = snd (Servicio.cancelar_reserva k m) \/
              m' = snd (Servicio.completar_reserva k m) ->
     m' !! k <> None ->
     fst (Servicio.cancelar_reserva k m') = Err (Validacion [Servicio.msg_cancelar]) /\
     fst (Servicio.completar_reserva k m') = Err (Validacion [Servicio.msg_completar])).
Proof.
  assert (Hid : forall r, m !! k = Some r -> id r = k) by (intros r Hr; exact (Hm k r Hr)).
  assert (Hnot : forall r, m !! k = Some r -> estado r <> Activa -> esta_activa r = false).
  { intros r _ Hr. unfold esta_activa. destruct (estado r); congruence. }
  split; [|split; [|split]].
  - intros Hk. rewrite cancelar_reserva_inmemory, completar_reserva_inmemory, Hk. done.
  - intros r Hk Ha. rewrite cancelar_reserva_inmemory, completar_reserva_inmemory, Hk.
    rewrite (Hnot r Hk Ha). done.
  - intros r Hk Ha. rewrite cancelar_reserva_inmemory, completar_reserva_inmemory, Hk.
    apply esta_activa_true in Ha as Ha'. rewrite Ha'. simpl.
    rewrite (Hid r Hk), Hk. done.
  - intros m' Hm' Hk'.
    rewrite cancelar_reserva_inmemory, completar_reserva_inmemory in Hm'.
    destruct (m !! k) as [r|] eqn:Hk.
    2:{ destruct Hm' as [->| ->]; simpl in Hk'; congruence. }
    assert (Hterm : forall r', m' !! k = Some r' -> esta_activa r' = false ->
      fst (Servicio.cancelar_reserva k m') = Err (Validacion [Servicio.msg_cancelar]) /\
      fst (Servicio.completar_reserva k m') = Err (Validacion [Servicio.msg_completar])).
    { intros r' Hr' Ha. rewrite cancelar_reserva_inmemory, completar_reserva_inmemory, Hr', Ha.
      done. }
    rewrite (Hid r eq_refl), Hk in Hm'.
    destruct (esta_activa r) eqn:Ha; simpl in Hm'.
    + destruct Hm' as [->| ->]; simpl; eapply Hterm;
        [apply lookup_insert_eq | reflexivity | apply lookup_insert_eq | reflexivity].
    + destruct Hm' as [->| ->]; simpl; eapply Hterm; eauto.
Qed.

(* ------------------------------------------------------------------ *)
(** ** [crear_reserva]: missing room or user *)

(** C2 (as stated, refuted): with no room behind the identifier, or no
    user, [crear_reserva] fails with a [Validacion] error, not with
    [NoEncontrada]. *)
Lemma crear_reserva_no_existe_es_validacion :
  fst (Servicio.crear_reserva (fun _ => Ok None) (fun _ => Ok (Some usuario_u1))
         0 0 0 "id1" "R1" "U1" (Duration_hours 1) (Duration_hours 2)
         (∅ : gmap string Reserva))
    = Err (Validacion [Servicio.msg_sala_no_existe]) /\
  fst (Servicio.crear_reserva (fun _ => Ok (Some sala_r1)) (fun _ => Ok None)
         0 0 0 "id1" "R1" "U1" (Duration_hours 1) (Duration_hours 2)
         (∅ : gmap string Reserva))
    = Err (Validacion [Servicio.msg_usuario_no_existe]) /\
  Validacion [Servicio.msg_sala_no_existe] <> NoEncontrada /\
  Validacion [Servicio.msg_usuario_no_existe] <> NoEncontrada.
Proof. vm_compute. repeat split; discriminate. Qed.

(** C2 (amended): for any repository and state, [crear_reserva] reports a
    room that the lookup does not find with [Validacion ["La sala no
    existe"]], an inactive room with [Validacion ["La sala no está
    activa"]], and, for an active room, a user that the lookup does not find
    with [Validacion ["El usuario no existe"]]; the repository state is
    untouched in all three cases. *)
Theorem crear_reserva_sala_usuario_ausentes {S : Type} `{!ReservaRepository S}
    (sala_obtener : string -> Result (option Salas.Sala) string)
    (usuario_obtener : string -> Result (option Usuarios.Usuario) string)
    (ahora creado ahora_temp : Z) (uuid sala usuario : string) (ini fin : Z) (st : S) :
  let crear := Servicio.crear_reserva sala_obtener usuario_obtener ahora creado ahora_temp
                 uuid sala usuario ini fin in
  (sala_obtener sala = Ok None ->
     crear st = (Err (Validacion [Servicio.msg_sala_no_existe]), st)) /\
  (forall s, sala_obtener sala = Ok (Some s) -> Salas.esta_activa s = false ->
     crear st = (Err (Validacion [Servicio.msg_sala_inactiva]), st)) /\
  (forall s, sala_obtener sala = Ok (Some s) -> Salas.esta_activa s = true ->
     usuario_obtener usuario = Ok None ->
     crear st = (Err (Validacion [Servicio.msg_usuario_no_existe]), st)).
Proof.
  intros crear. unfold crear, Servicio.crear_reserva.
  split; [|split].
  - intros Hs. rewrite Hs. reflexivity.
  - intros s Hs Ha. rewrite Hs. cbv [mbind M_bind mret M_ret]. rewrite Ha. reflexivity.
  - intros s Hs Ha Hu. rewrite Hs. cbv [mbind M_bind mret M_ret]. rewrite Ha, Hu.
    reflexivity.
Qed.

(* ------------------------------------------------------------------ *)
(** ** [actualizar] and [eliminar] of both repositories *)

Lemma save_to_file_efecto (to_json : File.ReservasData -> Result string string)
    (st : File.FileState) :
  File.instancia (snd (File.save_to_file to_json st)) = File.instancia st /\
  File.error_lectura (File.fs (snd (File.save_to_file to_json st))) =
    File.error_lectura (File.fs st) /\
  efecto_guardado to_json (File.fs st) (File.file_path (File.instancia st))
    (File.cache (File.instancia st)) (fst (File.save_to_file to_json st))
    (File.archivos (File.fs (snd (File.save_to_file to_json st)))).
Proof.
  unfold File.save_to_file, efecto_guardado.
  destruct (File.error_directorio (File.fs st) !! _) as [e|]; [simpl; auto|].
  destruct (to_json _) as [json|e]; [|simpl; auto].
  unfold File.fs_write. destruct (File.error_escritura (File.fs st) !! _) as [[e|n e]|];
    simpl; auto.
Qed.

(** After a cache mutation, the file-backed [guardar]/[actualizar]/
    [eliminar] end with [save_to_file?; Ok(())]: the result and state of
    [save_to_file]. *)
Lemma mutacion_archivo (to_json : File.ReservasData -> Result string string)
    (st : File.FileState) :
  (File.save_to_file to_json;; mret tt) st = File.save_to_file to_json st.
Proof.
  cbv [mbind M_bind mret M_ret]. destruct (File.save_to_file to_json st) as [[[]|e] s]; reflexivity.
Qed.

Lemma guardar_tras_cache (to_json : File.ReservasData -> Result string string)
    (st : File.FileState) (c : gmap string Reserva) :
  let path := File.file_path (File.instancia st) in
  exists res st', (File.save_to_file to_json;; mret tt) (File.set_cache c st) = (res, st') /\
    File.instancia st' = File.mkRepo path c /\
    File.error_lectura (File.fs st') = File.error_lectura (File.fs st) /\
    efecto_guardado to_json (File.fs st) path c res (File.archivos (File.fs st')).
Proof.
  rewrite mutacion_archivo. destruct (save_to_file_efecto to_json (File.set_cache c st)) as (Hi & Hl & He).
  destruct (File.save_to_file to_json (File.set_cache c st)) as [res st'].
  exists res, st'. simpl in *. auto.
Qed.

(** C9 (as stated, refuted): on the file-backed repository an id that is
    present does not make [actualizar]/[eliminar] succeed when the file
    cannot be written: both return [ErrorRepositorio]. *)
Lemma actualizar_eliminar_presente_falla_escritura :
  File.cache (File.instancia estado_solo_lectura) !! "r1" = Some r10_12 /\
  fst (File.actualizar to_json_r1 (cancelar r10_12) estado_solo_lectura)
    = Err (ErrorRepositorio ("Error al escribir archivo: " ++ permiso_denegado)) /\
  fst (File.eliminar to_json_r1 "r1" estado_solo_lectura)
    = Err (ErrorRepositorio ("Error al escribir archivo: " ++ permiso_denegado)).
Proof. split; [reflexivity|]. split; vm_compute; reflexivity. Qed.

(** [trim] strips Unicode white space, not only ASCII: a sala id made of a
    no-break space (U+00A0) and an ideographic space (U+3000) is empty
    once trimmed. *)
Example trim_espacios_unicode :
  is_empty (trim (String (Ascii.ascii_of_nat 194) (String (Ascii.ascii_of_nat 160)
            (String (Ascii.ascii_of_nat 227) (String (Ascii.ascii_of_nat 128)
            (String (Ascii.ascii_of_nat 128) EmptyString)))))) = true.
Proof. vm_compute. reflexivity. Qed.

(** On a disk that fills up during the write, [eliminar] of a present id
    fails with the io error, drops the entry from the cache, and leaves
    the file truncated to the bytes written. *)
Example eliminar_escritura_parcial :
  File.eliminar to_json_r1 "r1" estado_disco_lleno =
    (Err (ErrorRepositorio ("Error al escribir archivo: " ++ disco_lleno)),
     File.mkState (File.mkRepo "data/reservas.json" ∅)
       (File.mkFs {["data/reservas.json" := "{ r"]} ∅ ∅
          {["data/reservas.json" := File.AlEscribir 3 disco_lleno]})).
Proof. vm_compute. reflexivity. Qed.

(** C9 (amended): on an absent id, [actualizar] and [eliminar] of both
    repositories return [NoEncontrada] and change nothing; on a present id
    the in-memory ones return [Ok] after replacing or removing exactly that
    entry, and the file-backed ones replace or remove exactly that entry in
    the cache, then save the whole cache: [Ok] with the new document in the
    file when every step succeeds, otherwise [ErrorRepositorio] with the
    failing step's message, the cache changed all the same, the file as it
    was or, when [write_all] fails after the truncation, holding the first
    bytes of the new document ([efecto_guardado]). *)
Theorem actualizar_eliminar_repositorios :
  (forall (m : gmap string Reserva) (r : Reserva),
     m !! id r = None -> InMemory.actualizar r m = (Err NoEncontrada, m)) /\
  (forall (m : gmap string Reserva) (k : string),
     m !! k = None -> InMemory.eliminar k m = (Err NoEncontrada, m)) /\
  (forall (m : gmap string Reserva) (r : Reserva),
     m !! id r <> None -> InMemory.actualizar r m = (Ok tt, <[id r := r]> m)) /\
  (forall (m : gmap string Reserva) (k : string),
     m !! k <> None -> InMemory.eliminar k m = (Ok tt, delete k m)) /\
  (forall (to_json : File.ReservasData -> Result string string) (st : File.FileState)
          (r : Reserva),
     File.cache (File.instancia st) !! id r = None ->
     File.actualizar to_json r st = (Err NoEncontrada, st)) /\
  (forall (to_json : File.ReservasData -> Result string string) (st : File.FileState)
          (k : string),
     File.cache (File.instancia st) !! k = None ->
     File.eliminar to_json k st = (Err NoEncontrada, st)) /\
  (forall (to_json : File.ReservasData -> Result string string) (st : File.FileState)
          (r : Reserva),
     let path := File.file_path (File.instancia st) in
     let c := <[id r := r]> (File.cache (File.instancia st)) in
     File.cache (File.instancia st) !! id r <> None ->
     exists res st', File.actualizar to_json r st = (res, st') /\
       File.instancia st' = File.mkRepo path c /\
       efecto_guardado to_json (File.fs st) path c res (File.archivos (File.fs st'))) /\
  (forall (to_json : File.ReservasData -> Result string string) (st : File.FileState)
          (k : string),
     let path := File.file_path (File.instancia st) in
     let c := delete k (File.cache (File.instancia st)) in
     File.cache (File.instancia st) !! k <> None ->
     exists res st', File.eliminar to_json k st = (res, st') /\
       File.instancia st' = File.mkRepo path c /\
       efecto_guardado to_json (File.fs st) path c res (File.archivos (File.fs st'))).
Proof.
  split; [intros m r H; unfold InMemory.actualizar; by rewrite H|].
  split; [intros m k H; unfold InMemory.eliminar; by rewrite H|].
  split; [intros m r H; unfold InMemory.actualizar; by destruct (m !! id r)|].
  split; [intros m k H; unfold InMemory.eliminar; by destruct (m !! k)|].
  split; [intros to_json st r H; unfold File.actualizar; by rewrite H|].
  split; [intros to_json st k H; unfold File.eliminar; by rewrite H|].
  split.
  - intros to_json st r path c Hk.
    unfold File.actualizar.
    destruct (File.cache (File.instancia st) !! id r) eqn:Hx; [|congruence].
    destruct (guardar_tras_cache to_json st c) as (res & st' & Heq & Hi & _ & He).
    exists res, st'. unfold c in *. rewrite Heq. auto.
  - intros to_json st k path c Hk.
    unfold File.eliminar.
    destruct (File.cache (File.instancia st) !! k) eqn:Hx; [|congruence].
    destruct (guardar_tras_cache to_json st c) as (res & st' & Heq & Hi & _ & He).
    exists res, st'. unfold c in *. rewrite Heq. auto.
Qed.

(* ------------------------------------------------------------------ *)
(** ** Persistence round trip of [FileReservaRepository] *)

(** C7 (as stated, refuted): a file the process may write but not read
    (mode 0200) takes [guardar r] without error, yet a fresh repository on
    the same path fails in [init] with the read error, and [obtener (id r)]
    on it returns [None]. *)
Lemma guardar_init_falla_sin_lectura :
  File.guardar to_json_r1 r10_12 estado_sin_lectura =
    (Ok tt, snd (File.guardar to_json_r1 r10_12 estado_sin_lectura)) /\
  File.init from_json_r1
    (File.mkState (File.new "data/reservas.json")
       (File.fs (snd (File.guardar to_json_r1 r10_12 estado_sin_lectura)))) =
  (Err (ErrorRepositorio ("Error al leer archivo: " ++ permiso_denegado)),
   File.mkState (File.new "data/reservas.json")
       (File.fs (snd (File.guardar to_json_r1 r10_12 estado_sin_lectura)))) /\
  fst (File.obtener "r1" (File.mkState (File.new "data/reservas.json")
       (File.fs (snd (File.guardar to_json_r1 r10_12 estado_sin_lectura))))) = Ok None.
Proof. split; [|split]; vm_compute; reflexivity. Qed.

(** C7 (amended): after a successful [guardar r], a fresh
    [FileReservaRepository] on the same path, once [init] has run, holds
    the whole saved cache and returns [r] itself, every field equal, from
    [obtener (id r)], provided the file can be read and serde decodes the
    document it wrote (valid UTF-8); when the file cannot be read, [init]
    fails with ["Error al leer archivo: "] and the io error, and
    [obtener (id r)] on the fresh repository returns [None]. *)
Theorem guardar_init_obtener (to_json : File.ReservasData -> Result string string)
    (from_json : string -> Result File.ReservasData string)
    (st st' : File.FileState) (r : Reserva) :
  File.guardar to_json r st = (Ok tt, st') ->
  let path := File.file_path (File.instancia st) in
  let fresco := File.mkState (File.new path) (File.fs st') in
  (File.error_lectura (File.fs st) !! path = None ->
   (forall json, to_json {| File.reservas := File.cache (File.instancia st') |} = Ok json ->
      File.utf8_valido json = true /\
      from_json json = Ok {| File.reservas := File.cache (File.instancia st') |}) ->
   exists st'', File.init from_json fresco = (Ok tt, st'') /\
     File.cache (File.instancia st'') = File.cache (File.instancia st') /\
     fst (File.obtener (id r) st'') = Ok (Some r)) /\
  (forall e, File.error_lectura (File.fs st) !! path = Some e ->
   File.init from_json fresco =
     (Err (ErrorRepositorio ("Error al leer archivo: " ++ e)), fresco) /\
   fst (File.obtener (id r) fresco) = Ok None).
Proof.
  intros Hg path fresco. unfold File.guardar in Hg.
  destruct (guardar_tras_cache to_json st (<[id r := r]> (File.cache (File.instancia st))))
    as (res & s1 & Heq & Hi & Hl & He).
  cbv zeta in Hg. rewrite Heq in Hg. injection Hg as -> ->.
  unfold efecto_guardado in He.
  destruct (File.error_directorio (File.fs st) !! _); [destruct He; discriminate|].
  destruct (to_json _) as [json|e] eqn:Hj; [|destruct He; discriminate].
  destruct (File.error_escritura (File.fs st) !! _) as [[e|n e]|];
    [destruct He; discriminate | destruct He; discriminate|].
  destruct He as [_ Hf]. rewrite Hi. simpl.
  assert (Hx : File.exists_ path (File.fs st') = true).
  { unfold File.exists_. rewrite Hf. unfold path. by rewrite lookup_insert_eq. }
  split.
  - intros Hr Hs. destruct (Hs json Hj) as [Hu Hd].
    unfold File.init, File.load_from_file, fresco. simpl. rewrite Hx. simpl.
    unfold File.read_to_string. rewrite Hl, Hr, Hf. unfold path. rewrite lookup_insert_eq, Hu, Hd.
    eexists. split; [reflexivity|]. simpl. split; [reflexivity|]. by rewrite lookup_insert_eq.
  - intros e Hr. unfold File.init, File.load_from_file, fresco. simpl. rewrite Hx. simpl.
    unfold File.read_to_string. rewrite Hl, Hr. split; reflexivity.
Qed.

(* ------------------------------------------------------------------ *)
(** ** The theorems at concrete inputs *)

Lemma verificar_disponibilidad_correcta_witness :
  fst (Servicio.verificar_disponibilidad 0 "R1"
         (0 + Duration_hours 11) (0 + Duration_hours 13) repo_r1) = Ok false /\
  fst (Servicio.verificar_disponibilidad 0 "R1"
         (0 + Duration_hours 12) (0 + Duration_hours 13) repo_r1) = Ok true /\
  fst (Servicio.verificar_disponibilidad 0 "R1"
         (0 + Duration_hours 9) (0 + Duration_hours 10) repo_r1) = Ok true.
Proof. exact (proj2 (verificar_disponibilidad_correcta 0 "R1" 0 0 ∅) 0 "r1" "U1" 0). Defined.

Lemma crear_reserva_sala_usuario_ausentes_witness :
  (fun _ : string => Ok None : Result (option Salas.Sala) string) "R9" = Ok None /\
  Servicio.crear_reserva (fun _ => Ok None) (fun _ => Ok (Some usuario_u1))
    0 0 0 "id1" "R9" "U1" (Duration_hours 1) (Duration_hours 2) repo_r1
  = (Err (Validacion [Servicio.msg_sala_no_existe]), repo_r1).
Proof.
  split; [reflexivity|].
  apply (crear_reserva_sala_usuario_ausentes (fun _ => Ok None) (fun _ => Ok (Some usuario_u1))
           0 0 0 "id1" "R9" "U1" (Duration_hours 1) (Duration_hours 2) repo_r1).
  reflexivity.
Defined.

Lemma cancelar_completar_reserva_witness :
  claves_coherentes repo_r1 /\
  Servicio.cancelar_reserva "r1" repo_r1
    = (Ok (cancelar r10_12), <["r1" := cancelar r10_12]> repo_r1) /\
  fst (Servicio.completar_reserva "r1" (snd (Servicio.cancelar_reserva "r1" repo_r1)))
    = Err (Validacion [Servicio.msg_completar]).
Proof.
  assert (Hm : claves_coherentes repo_r1).
  { unfold claves_coherentes, repo_r1.
    apply map_Forall_insert_2; [reflexivity | apply map_Forall_empty]. }
  split; [exact Hm|]. split.
  - apply (proj1 (proj1 (proj2 (proj2 (cancelar_completar_reserva repo_r1 "r1" Hm)))
             r10_12 eq_refl eq_refl)).
  - assert (Hk : snd (Servicio.cancelar_reserva "r1" repo_r1) !! "r1" <> None)
      by (vm_compute; discriminate).
    exact (proj2 (proj2 (proj2 (proj2 (cancelar_completar_reserva repo_r1 "r1" Hm)))
             (snd (Servicio.cancelar_reserva "r1" repo_r1)) (or_introl eq_refl) Hk)).
Defined.

Lemma se_solapa_con_caracterizacion_witness :
  sala_id r10_12 <> sala_id (from_existing "r2" "R2" "U2" (hora 10) (hora 12) Activa 0) /\
  se_solapa_con r10_12 (from_existing "r2" "R2" "U2" (hora 10) (hora 12) Activa 0) = false.
Proof.
  assert (H : sala_id r10_12 <> sala_id (from_existing "r2" "R2" "U2" (hora 10) (hora 12) Activa 0))
    by (vm_compute; discriminate).
  split; [exact H|].
  exact (proj1 (proj2 (se_solapa_con_caracterizacion _ _)) H).
Defined.

Lemma new_reporta_todas_witness :
  0 < 100 /\ 0 < 100 /\
  exists errs, new 100 0 "u" "" "" 0 0 = Err (Validacion errs) /\
    In msg_sala_vacia errs /\ In msg_usuario_vacio errs /\
    In msg_inicio_pasado errs /\ In msg_fin_pasado errs /\ (4 <= length errs)%nat.
Proof.
  split; [lia|]. split; [lia|].
  apply (proj2 (new_reporta_todas 100 0 "u" "R1" "U1" 0 0)); lia.
Defined.

Lemma new_duracion_witness :
  is_empty (trim "R1") = false /\ is_empty (trim "U1") = false /\
  new 0 7 "u" "R1" "U1" (Duration_hours 1) (Duration_hours 1 + Duration_minutes 15)
  = Ok (from_existing "u" "R1" "U1" (Duration_hours 1)
          (Duration_hours 1 + Duration_minutes 15) Activa 7).
Proof.
  split; [reflexivity|]. split; [reflexivity|].
  apply (proj1 (proj2 (new_duracion 0 7 "u" "R1" "U1" (Duration_hours 1)
                         (Duration_hours 1 + Duration_minutes 15)))).
  - reflexivity.
  - reflexivity.
  - unfold Duration_hours. lia.
  - unfold Duration_hours, Duration_minutes. lia.
Defined.

Lemma guardar_init_obtener_witness :
  File.guardar to_json_r1 r10_12 estado_escribible
    = (Ok tt, snd (File.guardar to_json_r1 r10_12 estado_escribible)) /\
  exists st'',
    File.init from_json_r1
      (File.mkState (File.new "data/reservas.json")
         (File.fs (snd (File.guardar to_json_r1 r10_12 estado_escribible))))
      = (Ok tt, st'') /\
    File.cache (File.instancia st'')
      = File.cache (File.instancia (snd (File.guardar to_json_r1 r10_12 estado_escribible))) /\
    fst (File.obtener "r1" st'') = Ok (Some r10_12).
Proof.
  assert (Hg : File.guardar to_json_r1 r10_12 estado_escribible
    = (Ok tt, snd (File.guardar to_json_r1 r10_12 estado_escribible)))
    by (vm_compute; reflexivity).
  split; [exact Hg|].
  apply (proj1 (guardar_init_obtener to_json_r1 from_json_r1 estado_escribible _ r10_12 Hg)).
  - reflexivity.
  - intros json Hj. cbv [to_json_r1] in Hj. injection Hj as <-.
    split; vm_compute; reflexivity.
Defined.

Lemma actualizar_eliminar_repositorios_witness :
  (∅ : gmap string Reserva) !! "r1" = None /\
  InMemory.actualizar r10_12 ∅ = (Err NoEncontrada, ∅) /\
  repo_r1 !! "r1" <> None /\
  InMemory.eliminar "r1" repo_r1 = (Ok tt, delete "r1" repo_r1).
Proof.
  assert (H : repo_r1 !! "r1" <> None) by (vm_compute; discriminate).
  split; [reflexivity|]. split.
  - apply (proj1 actualizar_eliminar_repositorios). reflexivity.
  - split; [exact H|]. exact (proj1 (proj2 (proj2 (proj2 actualizar_eliminar_repositorios)))
                          repo_r1 "r1" H).
Defined.

Lemma cancelar_completar_incondicionales_witness :
  id (cancelar (completar r10_12)) = id (completar r10_12) /\
  estado (cancelar (completar r10_12)) = Cancelada.
Proof.
  split.
  - exact (proj1 (proj2 (proj2 (proj2 (proj2 (cancelar_completar_incondicionales
             (completar r10_12))))) cancelar (or_introl eq_refl))).
  - exact (proj1 (cancelar_completar_incondicionales (completar r10_12))).
Defined.

(* ------------------------------------------------------------------ *)
(** ** [crear_reserva] on the in-memory repository *)

Lemma new_ok (ahora creado : Z) (uuid sala usuario : string) (ini fin : Z) (r : Reserva) :
  new ahora creado uuid sala usuario ini fin = Ok r ->
  r = from_existing uuid sala usuario ini fin Activa creado /\ ini < fin /\ ahora <= ini.
Proof.
  unfold new. destruct_reglas; simpl; try discriminate.
  intros [= <-]. apply Z.leb_gt in E0. apply Z.ltb_ge in E2. auto.
Qed.

Lemma new_err (ahora creado : Z) (uuid sala usuario : string) (ini fin : Z) (e : ReservaError) :
  new ahora creado uuid sala usuario ini fin = Err e -> exists msgs, e = Validacion msgs.
Proof. unfold new. destruct_reglas; simpl; try discriminate; intros [= <-]; eauto. Qed.

Lemma crear_reserva_inmemory
    (sala_obtener : string -> Result (option Salas.Sala) string)
    (usuario_obtener : string -> Result (option Usuarios.Usuario) string)
    (ahora creado ahora_temp : Z) (uuid sala usuario : string) (ini fin : Z)
    (m : gmap string Reserva) :
  Servicio.crear_reserva sala_obtener usuario_obtener ahora creado ahora_temp uuid sala usuario
    ini fin m =
  match sala_obtener sala with
  | Err e => (Err (ErrorRepositorio ("Error al verificar sala: " ++ e)), m)
  | Ok None => (Err (Validacion [Servicio.msg_sala_no_existe]), m)
  | Ok (Some s) =>
      if negb (Salas.esta_activa s) then (Err (Validacion [Servicio.msg_sala_inactiva]), m) else
      match usuario_obtener usuario with
      | Err e => (Err (ErrorRepositorio ("Error al verificar usuario: " ++ e)), m)
      | Ok None => (Err (Validacion [Servicio.msg_usuario_no_existe]), m)
      | Ok (Some _) =>
          match new ahora creado uuid sala usuario ini fin with
          | Err e => (Err e, m)
          | Ok r =>
              match Servicio.verificar_disponibilidad ahora_temp sala ini fin m with
              | (Ok true, _) => (Ok r, <[id r := r]> m)
              | (Ok false, _) => (Err (Validacion [Servicio.msg_no_disponible]), m)
              | (Err e, _) => (Err e, m)
              end
          end
      end
  end.
Proof.
  unfold Servicio.crear_reserva.
  destruct (sala_obtener sala) as [[s|]|e]; [|reflexivity|reflexivity].
  cbv [mbind M_bind mret M_ret mthrow M_throw]. destruct (Salas.esta_activa s); [|reflexivity].
  simpl. destruct (usuario_obtener usuario) as [[u|]|e]; [|reflexivity|reflexivity].
  unfold lift_result. destruct (new ahora creado uuid sala usuario ini fin) as [r|e];
    [|reflexivity].
  cbv [mret M_ret]. destruct (existsb _ _); reflexivity.
Qed.

(** The temporary reservation of [verificar_disponibilidad] and a reservation
    built by [new] with the same room and interval overlap the same
    reservations. *)
Lemma se_solapa_con_misma_ventana (a b x : Reserva) :
  sala_id a = sala_id b -> estado a = estado b -> fecha_inicio a = fecha_inicio b ->
  fecha_fin a = fecha_fin b -> se_solapa_con a x = se_solapa_con b x.
Proof.
  intros Hs He Hi Hf. unfold se_solapa_con, esta_activa. rewrite Hs, He, Hi, Hf. reflexivity.
Qed.

Lemma se_solapa_con_sym (a b : Reserva) : se_solapa_con a b = se_solapa_con b a.
Proof.
  destruct (se_solapa_con b a) eqn:E2.
  - apply se_solapa_con_true. apply se_solapa_con_true in E2. intuition.
  - destruct (se_solapa_con a b) eqn:E1; [|done].
    rewrite <- E2. symmetry. apply se_solapa_con_true.
    apply se_solapa_con_true in E1. intuition.
Qed.

Lemma se_solapa_con_inactiva (a b : Reserva) : estado a <> Activa -> se_solapa_con a b = false.
Proof.
  intros Ha. destruct (se_solapa_con a b) eqn:E; [|done].
  apply se_solapa_con_true in E. tauto.
Qed.

(** Inserting a reservation that overlaps nothing stored (other than the
    entry it replaces) keeps a store free of overlaps. *)
Lemma sin_solapamientos_insert (m : gmap string Reserva) (k : string) (r : Reserva) :
  sin_solapamientos m ->
  (forall k' r', k' <> k -> m !! k' = Some r' -> se_solapa_con r r' = false) ->
  sin_solapamientos (<[k := r]> m).
Proof.
  intros Hm Hr k1 k2 r1 r2 Hne H1 H2.
  rewrite lookup_insert in H1, H2.
  case_decide as E1; case_decide as E2; simplify_eq;
    first [ by apply (Hm k1 k2) | by eapply Hr
          | rewrite se_solapa_con_sym; by eapply Hr ].
Qed.

Lemma disponible_no_solapa (m : gmap string Reserva) (sala : string) (ini fin : Z)
    (b : bool) (uuid usuario : string) (c : Z) :
  (b = false <-> exists k r, m !! k = Some r /\ sala_id r = sala /\ estado r = Activa /\
                   fecha_inicio r < fin /\ ini < fecha_fin r) ->
  b = true ->
  forall k r', m !! k = Some r' ->
    se_solapa_con (from_existing uuid sala usuario ini fin Activa c) r' = false.
Proof.
  intros Hb -> k r' Hk. destruct (se_solapa_con _ r') eqn:E; [|done].
  apply se_solapa_con_true in E. simpl in E.
  assert (true = false) by (apply Hb; exists k, r'; intuition). discriminate.
Qed.

Section CrearInMemory.
Context (sala_obtener : string -> Result (option Salas.Sala) string)
        (usuario_obtener : string -> Result (option Usuarios.Usuario) string)
        (ahora creado ahora_temp : Z) (uuid sala usuario : string) (ini fin : Z).

Let crear := Servicio.crear_reserva (S := gmap string Reserva) sala_obtener usuario_obtener
               ahora creado ahora_temp uuid sala usuario ini fin.

(** [crear_reserva] on the in-memory repository either stores and returns
    the new [Activa] reservation under its generated id, or fails with a
    [Validacion] or [ErrorRepositorio] error (never [NoEncontrada]) and
    leaves the store as it was. *)
Theorem crear_reserva_resultado_inmemory (m : gmap string Reserva) :
  match crear m with
  | (Ok r, m') => m' = <[uuid := r]> m /\ id r = uuid /\
                  r = from_existing uuid sala usuario ini fin Activa creado
  | (Err e, m') => m' = m /\
                   ((exists msgs, e = Validacion msgs) \/ (exists msg, e = ErrorRepositorio msg))
  end.
Proof.
  unfold crear. rewrite crear_reserva_inmemory.
  destruct (sala_obtener sala) as [[s|]|e]; [|eauto|eauto].
  destruct (Salas.esta_activa s); cbn [negb]; [|eauto].
  destruct (usuario_obtener usuario) as [[u|]|e]; [|eauto|eauto].
  destruct (new ahora creado uuid sala usuario ini fin) as [r|e] eqn:En.
  - destruct (verificar_disponibilidad_inmemory_spec ahora_temp sala ini fin m)
      as (b & -> & _).
    apply new_ok in En as (-> & _). destruct b; simpl; eauto.
  - apply new_err in En. auto.
Qed.

(** With the room active, the user present and the dates accepted by
    [Reserva::new], [crear_reserva] stores the reservation exactly when no
    stored [Activa] reservation of the room intersects [ini, fin), and
    otherwise fails with ["La sala no está disponible en el horario
    solicitado"], store unchanged. *)
Theorem crear_reserva_disponibilidad_inmemory (m : gmap string Reserva) (s : Salas.Sala)
    (u : Usuarios.Usuario) (r : Reserva) :
  sala_obtener sala = Ok (Some s) -> Salas.esta_activa s = true ->
  usuario_obtener usuario = Ok (Some u) ->
  new ahora creado uuid sala usuario ini fin = Ok r ->
  ((~ exists k r', m !! k = Some r' /\ sala_id r' = sala /\ estado r' = Activa /\
                   fecha_inicio r' < fin /\ ini < fecha_fin r') ->
     crear m = (Ok r, <[id r := r]> m)) /\
  ((exists k r', m !! k = Some r' /\ sala_id r' = sala /\ estado r' = Activa /\
                 fecha_inicio r' < fin /\ ini < fecha_fin r') ->
     crear m = (Err (Validacion [Servicio.msg_no_disponible]), m)).
Proof.
  intros Hs Ha Hu Hn. unfold crear. rewrite crear_reserva_inmemory, Hs, Ha, Hu, Hn. cbn [negb].
  destruct (verificar_disponibilidad_inmemory_spec ahora_temp sala ini fin m)
    as (b & -> & Hb).
  split; intros H; destruct b; try reflexivity.
  - exfalso. apply H. by apply Hb.
  - assert (true = false) by (apply Hb; exact H). discriminate.
Qed.

(** A [crear_reserva] call with no other repository operation between its
    availability check and its [guardar] (a single caller) keeps a store
    free of overlapping reservations. *)
Theorem crear_reserva_sin_solapamientos (m : gmap string Reserva) :
  sin_solapamientos m -> sin_solapamientos (snd (crear m)).
Proof.
  intros Hm. unfold crear. rewrite crear_reserva_inmemory.
  destruct (sala_obtener sala) as [[s|]|e]; [|done|done].
  destruct (Salas.esta_activa s); cbn [negb]; [|done].
  destruct (usuario_obtener usuario) as [[u|]|e]; [|done|done].
  destruct (new ahora creado uuid sala usuario ini fin) as [r|e] eqn:En; [|done].
  destruct (verificar_disponibilidad_inmemory_spec ahora_temp sala ini fin m)
    as (b & -> & Hb).
  destruct b; [|done]. simpl.
  apply new_ok in En as (-> & _).
  apply sin_solapamientos_insert; [done|].
  intros k' r' _ Hk'. by eapply disponible_no_solapa.
Qed.

(** Right after a successful [crear_reserva], the same room and interval
    are reported unavailable. *)
Theorem crear_reserva_bloquea_intervalo (m m' : gmap string Reserva) (r : Reserva)
    (ahora2 : Z) :
  crear m = (Ok r, m') ->
  Servicio.verificar_disponibilidad ahora2 sala ini fin m' = (Ok false, m').
Proof.
  intros Hc. pose proof (crear_reserva_resultado_inmemory m) as Hres.
  rewrite Hc in Hres. destruct Hres as (-> & Hid & Hr).
  unfold crear in Hc. rewrite crear_reserva_inmemory in Hc.
  destruct (sala_obtener sala) as [[s|]|e]; try discriminate.
  destruct (Salas.esta_activa s); cbn [negb] in Hc; [|discriminate].
  destruct (usuario_obtener usuario) as [[u|]|e]; try discriminate.
  destruct (new ahora creado uuid sala usuario ini fin) as [r0|e] eqn:En; [|discriminate].
  apply new_ok in En as (_ & Hlt & _).
  destruct (verificar_disponibilidad_inmemory_spec ahora2 sala ini fin (<[uuid := r]> m))
    as (b & -> & Hb).
  destruct b; [|reflexivity]. exfalso.
  assert (true = false); [|discriminate].
  apply Hb. exists uuid, r. rewrite lookup_insert_eq, Hr. simpl. intuition lia.
Qed.

End CrearInMemory.

(* ------------------------------------------------------------------ *)
(** ** Two concurrent [crear_reserva] requests *)

Lemma crear_reserva_en_dos_pasos {S : Type} `{!ReservaRepository S}
    (sala_obtener : string -> Result (option Salas.Sala) string)
    (usuario_obtener : string -> Result (option Usuarios.Usuario) string)
    (ahora creado ahora_temp : Z) (uuid sala usuario : string) (ini fin : Z) (st : S) :
  Servicio.crear_reserva sala_obtener usuario_obtener ahora creado ahora_temp uuid sala usuario
    ini fin st =
  (r ← Servicio.crear_reserva_previo sala_obtener usuario_obtener ahora creado ahora_temp uuid
         sala usuario ini fin;
   guardar r;; mret r) st.
Proof.
  unfold Servicio.crear_reserva, Servicio.crear_reserva_previo, Servicio.verificar_disponibilidad.
  cbv [mbind M_bind mret M_ret mthrow M_throw lift_result].
  destruct (sala_obtener sala) as [[s|]|e]; [|reflexivity|reflexivity].
  destruct (Salas.esta_activa s); cbn [negb]; [|reflexivity].
  destruct (usuario_obtener usuario) as [[u|]|e]; [|reflexivity|reflexivity].
  destruct (new ahora creado uuid sala usuario ini fin) as [r|e]; [|reflexivity].
  destruct (listar_por_sala_y_rango sala ini fin st) as [[l|e] st1]; [|reflexivity].
  destruct (negb (existsb _ l)); cbn [negb]; [|reflexivity].
  destruct (guardar r st1) as [[[]|e] st2]; reflexivity.
Qed.

Lemma crear_reserva_previo_inmemory
    (sala_obtener : string -> Result (option Salas.Sala) string)
    (usuario_obtener : string -> Result (option Usuarios.Usuario) string)
    (ahora creado ahora_temp : Z) (uuid sala usuario : string) (ini fin : Z)
    (m : gmap string Reserva) :
  snd (Servicio.crear_reserva_previo (S := gmap string Reserva) sala_obtener usuario_obtener
         ahora creado ahora_temp uuid sala usuario ini fin m) = m /\
  forall r, fst (Servicio.crear_reserva_previo (S := gmap string Reserva) sala_obtener
                   usuario_obtener ahora creado ahora_temp uuid sala usuario ini fin m) = Ok r ->
    r = from_existing uuid sala usuario ini fin Activa creado.
Proof.
  unfold Servicio.crear_reserva_previo.
  cbv [mbind M_bind mret M_ret mthrow M_throw lift_result].
  destruct (sala_obtener sala) as [[s|]|e]; [|split; [reflexivity|discriminate]..].
  destruct (Salas.esta_activa s); cbn [negb]; [|split; [reflexivity|discriminate]].
  destruct (usuario_obtener usuario) as [[u|]|e]; [|split; [reflexivity|discriminate]..].
  destruct (new ahora creado uuid sala usuario ini fin) as [r|e] eqn:En;
    [|split; [reflexivity|discriminate]].
  destruct (verificar_disponibilidad_inmemory_spec ahora_temp sala ini fin m) as (b & -> & _).
  apply new_ok in En as (-> & _).
  destruct b; cbn [negb]; split; [reflexivity| |reflexivity|discriminate].
  intros r [= <-]. reflexivity.
Qed.

Lemma crear_reserva_ok_previo
    (sala_obtener : string -> Result (option Salas.Sala) string)
    (usuario_obtener : string -> Result (option Usuarios.Usuario) string)
    (ahora creado ahora_temp : Z) (uuid sala usuario : string) (ini fin : Z)
    (m : gmap string Reserva) (r : Reserva) :
  fst (Servicio.crear_reserva (S := gmap string Reserva) sala_obtener usuario_obtener
         ahora creado ahora_temp uuid sala usuario ini fin m) = Ok r ->
  Servicio.crear_reserva_previo (S := gmap string Reserva) sala_obtener usuario_obtener
    ahora creado ahora_temp uuid sala usuario ini fin m = (Ok r, m) /\
  r = from_existing uuid sala usuario ini fin Activa creado.
Proof.
  rewrite crear_reserva_en_dos_pasos.
  destruct (crear_reserva_previo_inmemory sala_obtener usuario_obtener ahora creado ahora_temp
              uuid sala usuario ini fin m) as [Hs Hr].
  cbv [mbind M_bind mret M_ret].
  destruct (Servicio.crear_reserva_previo _ _ _ _ _ _ _ _ _ _ m) as [[x|e] s].
  - cbn [fst snd] in Hs, Hr. subst s. intros [= ->]. split; [reflexivity|]. by apply Hr.
  - discriminate.
Qed.

(** Two [crear_reserva] requests for the same room with intersecting
    intervals, each of which succeeds on the store alone, interleaved as
    the locking allows (both availability checks before either
    [guardar]), both succeed and leave two overlapping [Activa]
    reservations in the store; run one after the other, the second fails
    with ["La sala no está disponible en el horario solicitado"]. *)
Theorem crear_reserva_carrera
    (sala_obtener : string -> Result (option Salas.Sala) string)
    (usuario_obtener : string -> Result (option Usuarios.Usuario) string)
    (m : gmap string Reserva) (a1 c1 t1 a2 c2 t2 : Z) (u1 u2 sala us1 us2 : string)
    (i1 f1 i2 f2 : Z) (r1 r2 : Reserva) :
  fst (Servicio.crear_reserva (S := gmap string Reserva) sala_obtener usuario_obtener
         a1 c1 t1 u1 sala us1 i1 f1 m) = Ok r1 ->
  fst (Servicio.crear_reserva (S := gmap string Reserva) sala_obtener usuario_obtener
         a2 c2 t2 u2 sala us2 i2 f2 m) = Ok r2 ->
  u1 <> u2 -> i1 < f2 -> i2 < f1 ->
  (r ← Servicio.crear_reserva_previo sala_obtener usuario_obtener a1 c1 t1 u1 sala us1 i1 f1;
   r' ← Servicio.crear_reserva_previo sala_obtener usuario_obtener a2 c2 t2 u2 sala us2 i2 f2;
   guardar r;; guardar r';; mret (r, r')) m = (Ok (r1, r2), <[u2 := r2]> (<[u1 := r1]> m)) /\
  fst (Servicio.crear_reserva (S := gmap string Reserva) sala_obtener usuario_obtener
         a2 c2 t2 u2 sala us2 i2 f2 (<[u1 := r1]> m)) =
    Err (Validacion [Servicio.msg_no_disponible]) /\
  ~ sin_solapamientos (<[u2 := r2]> (<[u1 := r1]> m)).
Proof.
  intros H1 H2 Hu Hi Hf.
  destruct (crear_reserva_ok_previo _ _ _ _ _ _ _ _ _ _ _ _ H1) as [P1 E1].
  destruct (crear_reserva_ok_previo _ _ _ _ _ _ _ _ _ _ _ _ H2) as [P2 E2].
  split; [|split].
  - cbv [mbind M_bind mret M_ret]. rewrite P1. cbv beta iota. rewrite P2. cbv beta iota.
    cbv [guardar InMemory.repo InMemory.guardar]. subst r1 r2. reflexivity.
  - rewrite crear_reserva_inmemory in H2 |- *.
    destruct (sala_obtener sala) as [[s|]|e]; cbn [fst] in H2; try discriminate.
    destruct (Salas.esta_activa s); cbn [negb fst] in H2 |- *; try discriminate.
    destruct (usuario_obtener us2) as [[u|]|e]; cbn [fst] in H2; try discriminate.
    destruct (new a2 c2 u2 sala us2 i2 f2) as [r|e]; cbn [fst] in H2; try discriminate.
    destruct (verificar_disponibilidad_inmemory_spec t2 sala i2 f2 (<[u1 := r1]> m))
      as (b & -> & Hb).
    assert (b = false) as ->; [|reflexivity].
    apply Hb. exists u1, r1. rewrite lookup_insert_eq. subst r1. cbn. auto.
  - intros Hs.
    assert (Hk2 : <[u2 := r2]> (<[u1 := r1]> m) !! u2 = Some r2) by apply lookup_insert_eq.
    assert (Hk1 : <[u2 := r2]> (<[u1 := r1]> m) !! u1 = Some r1)
      by (rewrite lookup_insert_ne by congruence; apply lookup_insert_eq).
    pose proof (Hs u1 u2 r1 r2 Hu Hk1 Hk2) as E. subst r1 r2.
    unfold se_solapa_con in E. cbn [sala_id esta_activa estado fecha_inicio fecha_fin from_existing] in E.
    rewrite String.eqb_refl, (proj2 (Z.ltb_lt _ _) Hi), (proj2 (Z.ltb_lt _ _) Hf) in E.
    discriminate.
Qed.

(** [cancelar_reserva] and [completar_reserva] keep a store free of
    overlapping reservations. *)
Theorem cancelar_completar_sin_solapamientos (m : gmap string Reserva) (k : string) :
  sin_solapamientos m ->
  sin_solapamientos (snd (Servicio.cancelar_reserva k m)) /\
  sin_solapamientos (snd (Servicio.completar_reserva k m)).
Proof.
  intros Hm. rewrite cancelar_reserva_inmemory, completar_reserva_inmemory.
  destruct (m !! k) as [r|]; [|done].
  destruct (esta_activa r); simpl; [|done].
  destruct (m !! id r); simpl; [|done].
  split; apply sin_solapamientos_insert; try done;
    intros; apply se_solapa_con_inactiva; simpl; discriminate.
Qed.

Lemma verificar_disponibilidad_ext (ahora : Z) (sala : string) (ini fin : Z)
    (m1 m2 : gmap string Reserva) :
  ((exists k r, m1 !! k = Some r /\ sala_id r = sala /\ estado r = Activa /\
                fecha_inicio r < fin /\ ini < fecha_fin r) <->
   (exists k r, m2 !! k = Some r /\ sala_id r = sala /\ estado r = Activa /\
                fecha_inicio r < fin /\ ini < fecha_fin r)) ->
  fst (Servicio.verificar_disponibilidad ahora sala ini fin m1) =
  fst (Servicio.verificar_disponibilidad ahora sala ini fin m2).
Proof.
  intros H.
  destruct (verificar_disponibilidad_inmemory_spec ahora sala ini fin m1) as (b1 & -> & H1).
  destruct (verificar_disponibilidad_inmemory_spec ahora sala ini fin m2) as (b2 & -> & H2).
  simpl. f_equal. destruct b1, b2; try reflexivity.
  - assert (true = false) by (apply H1, H, H2; reflexivity). discriminate.
  - assert (true = false) by (apply H2, H, H1; reflexivity). discriminate.
Qed.

Lemma esta_activa_false (r : Reserva) : esta_activa r = false -> estado r <> Activa.
Proof. unfold esta_activa. destruct (estado r); congruence. Qed.

Lemma bloqueo_tras_cambio_estado (m : gmap string Reserva) (k : string) (r : Reserva)
    (sala : string) (ini fin : Z) :
  estado r <> Activa ->
  ((exists k' r', <[k := r]> m !! k' = Some r' /\ sala_id r' = sala /\ estado r' = Activa /\
                  fecha_inicio r' < fin /\ ini < fecha_fin r') <->
   (exists k' r', delete k m !! k' = Some r' /\ sala_id r' = sala /\ estado r' = Activa /\
                  fecha_inicio r' < fin /\ ini < fecha_fin r')).
Proof.
  intros Hr. split.
  - intros (k' & r' & Hk & Hp). destruct (decide (k = k')) as [<-|Hne].
    + rewrite lookup_insert_eq in Hk. injection Hk as <-. tauto.
    + rewrite lookup_insert_ne in Hk by done. exists k', r'.
      rewrite lookup_delete_ne by done. auto.
  - intros (k' & r' & Hk & Hp). destruct (decide (k = k')) as [<-|Hne].
    + rewrite lookup_delete_eq in Hk. discriminate.
    + rewrite lookup_delete_ne in Hk by done. exists k', r'.
      rewrite lookup_insert_ne by done. auto.
Qed.

(** On a store whose keys are the reservations' ids, cancelling or
    completing reservation [k] (whether it succeeds or not) leaves every
    availability answer as it would be with [k] removed from the store. *)
Theorem cancelar_completar_libera_intervalo (m : gmap string Reserva) (k : string)
    (ahora : Z) (sala : string) (ini fin : Z) :
  claves_coherentes m ->
  fst (Servicio.verificar_disponibilidad ahora sala ini fin (snd (Servicio.cancelar_reserva k m))) =
  fst (Servicio.verificar_disponibilidad ahora sala ini fin (delete k m)) /\
  fst (Servicio.verificar_disponibilidad ahora sala ini fin (snd (Servicio.completar_reserva k m))) =
  fst (Servicio.verificar_disponibilidad ahora sala ini fin (delete k m)).
Proof.
  intros Hc. rewrite cancelar_reserva_inmemory, completar_reserva_inmemory.
  destruct (m !! k) as [r|] eqn:Hk; [|rewrite delete_id by done; auto].
  pose proof (map_Forall_lookup_1 _ _ _ _ Hc Hk) as Hid. simpl in Hid. rewrite Hid, Hk.
  destruct (esta_activa r) eqn:Ha; cbn [negb snd].
  - split; apply verificar_disponibilidad_ext, bloqueo_tras_cambio_estado; simpl; discriminate.
  - pose proof (bloqueo_tras_cambio_estado m k r sala ini fin (esta_activa_false r Ha)) as Hb.
    rewrite insert_id in Hb by done.
    split; apply verificar_disponibilidad_ext, Hb.
Qed.

Lemma fold_insert_lookup (l : list Reserva) (acc : gmap string Reserva) (k : string) :
  fold_left (fun map reserva => <[id reserva := reserva]> map) l acc !! k =
  match last (List.filter (fun r => String.eqb (id r) k) l) with
  | Some r => Some r
  | None => acc !! k
  end.
Proof.
  revert acc. induction l as [|a l IH]; intros acc; [reflexivity|].
  simpl. rewrite IH. destruct (String.eqb (id a) k) eqn:E.
  - apply String.eqb_eq in E. subst k. rewrite last_cons.
    destruct (last _); simpl; [reflexivity|]. apply lookup_insert_eq.
  - apply String.eqb_neq in E. destruct (last _); [reflexivity|].
    apply lookup_insert_ne. done.
Qed.

(** [with_reservas l] stores, under each id, the last element of [l]
    carrying that id (later elements overwrite earlier ones), and nothing
    else; every entry is stored under its own id. *)
Theorem with_reservas_lookup (l : list Reserva) :
  (forall k, InMemory.with_reservas l !! k =
             last (List.filter (fun r => String.eqb (id r) k) l)) /\
  claves_coherentes (InMemory.with_reservas l).
Proof.
  assert (Hl : forall k, InMemory.with_reservas l !! k =
                         last (List.filter (fun r => String.eqb (id r) k) l)).
  { intros k. unfold InMemory.with_reservas. rewrite fold_insert_lookup.
    destruct (last _); reflexivity. }
  split; [exact Hl|]. intros k r Hk. rewrite Hl in Hk.
  apply last_Some_elem_of in Hk. apply list_elem_of_In, filter_In in Hk as [_ E].
  by apply String.eqb_eq in E.
Qed.

(** [listar_por_sala] and [listar_por_usuario] return exactly the stored
    reservations of the given room (resp. user), [listar] every stored
    reservation, as many as [count] reports; none of them changes the store. *)
Theorem listar_inmemory (m : gmap string Reserva) (s u : string) :
  (exists l, InMemory.listar_por_sala s m = (Ok l, m) /\
     forall r, In r l <-> (exists k, m !! k = Some r) /\ sala_id r = s) /\
  (exists l, InMemory.listar_por_usuario u m = (Ok l, m) /\
     forall r, In r l <-> (exists k, m !! k = Some r) /\ usuario_id r = u) /\
  (exists l, InMemory.listar m = (Ok l, m) /\
     (forall r, In r l <-> exists k, m !! k = Some r) /\ length l = InMemory.count m).
Proof.
  split; [|split]; (eexists; split; [reflexivity|]).
  - intros r. rewrite filter_In, In_values, String.eqb_eq. tauto.
  - intros r. rewrite filter_In, In_values, String.eqb_eq. tauto.
  - split; [intros r; apply In_values|].
    unfold values, InMemory.count. rewrite length_fmap. apply length_map_to_list.
Qed.

(** [count] after [guardar r] grows by one when no reservation was stored
    under [id r] and is unchanged otherwise (the entry is replaced); after
    a successful [eliminar] it drops by one, and after [clear] it is 0. *)
Theorem count_guardar_eliminar_clear (m : gmap string Reserva) (r : Reserva) (k : string) :
  InMemory.count (snd (InMemory.guardar r m)) =
    (if decide (m !! id r = None) then S (InMemory.count m) else InMemory.count m) /\
  (fst (InMemory.eliminar k m) = Ok tt ->
     S (InMemory.count (snd (InMemory.eliminar k m))) = InMemory.count m) /\
  InMemory.count (InMemory.clear m) = 0%nat.
Proof.
  unfold InMemory.count. split; [|split].
  - simpl. rewrite map_size_insert. destruct (m !! id r); reflexivity.
  - unfold InMemory.eliminar. destruct (m !! k) as [x|] eqn:Hk; [|discriminate].
    intros _. simpl. rewrite map_size_delete, Hk. simpl.
    assert (size m <> 0%nat); [|lia].
    rewrite map_size_empty_iff. intros ->. rewrite lookup_empty in Hk. discriminate.
  - apply map_size_empty.
Qed.

Lemma new_ok_rango (ahora creado : Z) (uuid sala usuario : string) (ini fin : Z) (r : Reserva) :
  new ahora creado uuid sala usuario ini fin = Ok r ->
  Duration_minutes 15 <= fin - ini <= Duration_hours 8.
Proof.
  unfold new. destruct_reglas; simpl; try discriminate. intros _.
  repeat match goal with
         | H : _ || _ = false |- _ => apply orb_false_iff in H as [? ?]
         | H : (_ <? _) = false |- _ => apply Z.ltb_ge in H
         end.
  lia.
Qed.

(** A reservation accepted by [Reserva::new] lasts between 15 and 480
    whole minutes by [duracion_minutos]. *)
Theorem new_duracion_minutos (ahora creado : Z) (uuid sala usuario : string) (ini fin : Z)
    (r : Reserva) :
  new ahora creado uuid sala usuario ini fin = Ok r -> 15 <= duracion_minutos r <= 480.
Proof.
  intros Hn. pose proof (new_ok_rango _ _ _ _ _ _ _ _ Hn) as Hd.
  apply new_ok in Hn as (-> & _). unfold duracion_minutos. simpl.
  unfold Duration_minutes, Duration_hours in Hd.
  rewrite (Z.quot_div_nonneg (fin - ini)) by lia.
  rewrite Z.quot_div_nonneg by (try apply Z.div_pos; lia).
  split.
  - change 15 with ((900000000000 / 1000000000) / 60).
    apply Z.div_le_mono; [lia|]. apply Z.div_le_mono; lia.
  - change 480 with ((28800000000000 / 1000000000) / 60).
    apply Z.div_le_mono; [lia|]. apply Z.div_le_mono; lia.
Qed.

Lemma cache_tras_guardado (to_json : File.ReservasData -> Result string string)
    (st : File.FileState) (c : gmap string Reserva) :
  File.cache (File.instancia (snd ((File.save_to_file to_json;; mret tt) (File.set_cache c st)))) = c.
Proof. rewrite mutacion_archivo, (proj1 (save_to_file_efecto to_json _)). reflexivity. Qed.

(** A file that is present, readable and decoded by serde makes [init]
    load exactly the data decoded. *)
Lemma init_tras_escritura (from_json : string -> Result File.ReservasData string)
    (f : File.Fs) (path json : string) (d : File.ReservasData) :
  File.archivos f !! path = Some json -> File.error_lectura f !! path = None ->
  File.utf8_valido json = true -> from_json json = Ok d ->
  File.init from_json (File.mkState (File.new path) f) =
    (Ok tt, File.mkState (File.mkRepo path (File.reservas d)) f).
Proof.
  intros Ha Hl Hu Hd. unfold File.init, File.load_from_file, File.exists_, File.read_to_string.
  cbn [File.instancia File.fs File.file_path File.new]. rewrite Hl, Ha. cbn [negb].
  rewrite Hu, Hd. reflexivity.
Qed.

Ltac refleja_guardado :=
  cbv [refleja]; cbn [fst snd];
  rewrite ?mutacion_archivo;
  lazymatch goal with
  | |- context [File.save_to_file ?tj (File.set_cache ?c ?s)] =>
      let Hi := fresh "Hi" in
      destruct (save_to_file_efecto tj (File.set_cache c s)) as (Hi & _ & _);
      destruct (File.save_to_file tj (File.set_cache c s)) as [[[]|?] ?];
      cbn [fst snd] in Hi |- *; rewrite Hi;
      cbn [File.cache File.instancia File.file_path File.set_cache fst snd]; auto
  end.

(** The file-backed [guardar], [actualizar] and [eliminar] change the
    cache exactly as the in-memory repository changes its map, also when
    saving fails; their result is the in-memory one, except that a success
    becomes the error of [save_to_file] on the new cache when saving
    fails. *)
Theorem file_refleja_inmemory (to_json : File.ReservasData -> Result string string)
    (st : File.FileState) (r : Reserva) (k : string) :
  let c := File.cache (File.instancia st) in
  refleja to_json st (File.guardar to_json r st) (InMemory.guardar r c) /\
  refleja to_json st (File.actualizar to_json r st) (InMemory.actualizar r c) /\
  refleja to_json st (File.eliminar to_json k st) (InMemory.eliminar k c).
Proof.
  cbv zeta. unfold File.guardar, File.actualizar, File.eliminar,
    InMemory.guardar, InMemory.actualizar, InMemory.eliminar.
  split; [|split]; [| destruct (_ !! id r) | destruct (_ !! k)];
    first [ solve [refleja_guardado] | solve [unfold refleja; simpl; auto] ].
Qed.

(** After any successful [guardar], [actualizar] or [eliminar], the file
    holds the serialised whole cache, and a fresh repository on the same
    path loads, through [init], exactly that cache, provided the file can
    be read and serde decodes that document. *)
Theorem mutacion_persiste_cache (to_json : File.ReservasData -> Result string string)
    (from_json : string -> Result File.ReservasData string)
    (st st' : File.FileState) (r : Reserva) (k : string) :
  File.guardar to_json r st = (Ok tt, st') \/
  File.actualizar to_json r st = (Ok tt, st') \/
  File.eliminar to_json k st = (Ok tt, st') ->
  let path := File.file_path (File.instancia st) in
  File.file_path (File.instancia st') = path /\
  exists json, to_json {| File.reservas := File.cache (File.instancia st') |} = Ok json /\
    File.archivos (File.fs st') !! path = Some json /\
    (File.error_lectura (File.fs st') !! path = None -> File.utf8_valido json = true ->
     from_json json = Ok {| File.reservas := File.cache (File.instancia st') |} ->
     File.init from_json (File.mkState (File.new path) (File.fs st')) =
       (Ok tt, File.mkState (File.mkRepo path (File.cache (File.instancia st'))) (File.fs st'))).
Proof.
  assert (Hc : forall c, (File.save_to_file to_json;; mret tt) (File.set_cache c st) = (Ok tt, st') ->
     File.file_path (File.instancia st') = File.file_path (File.instancia st) /\
     exists json, to_json {| File.reservas := File.cache (File.instancia st') |} = Ok json /\
       File.archivos (File.fs st') !! File.file_path (File.instancia st) = Some json).
  { intros c H. rewrite mutacion_archivo in H.
    destruct (save_to_file_efecto to_json (File.set_cache c st)) as (Hi & _ & He).
    rewrite H in Hi, He. cbn [fst snd File.set_cache File.instancia File.fs File.cache File.file_path] in Hi, He.
    rewrite Hi. cbn [File.cache File.file_path]. split; [reflexivity|].
    unfold efecto_guardado in He.
    destruct (File.error_directorio (File.fs st) !! _); [destruct He; discriminate|].
    destruct (to_json _) as [json|e]; [|destruct He; discriminate].
    destruct (File.error_escritura (File.fs st) !! _) as [[e|n e]|];
      [destruct He; discriminate | destruct He; discriminate|].
    destruct He as [_ ->]. exists json. split; [reflexivity|]. apply lookup_insert_eq. }
  intros Hop. cbv zeta.
  assert (H : File.file_path (File.instancia st') = File.file_path (File.instancia st) /\
     exists json, to_json {| File.reservas := File.cache (File.instancia st') |} = Ok json /\
       File.archivos (File.fs st') !! File.file_path (File.instancia st) = Some json).
  { unfold File.guardar, File.actualizar, File.eliminar in Hop.
    destruct Hop as [Hop|[Hop|Hop]].
    - exact (Hc _ Hop).
    - destruct (_ !! id r); [exact (Hc _ Hop)|discriminate].
    - destruct (_ !! k); [exact (Hc _ Hop)|discriminate]. }
  destruct H as [Hp (json & Hj & Hf)]. split; [exact Hp|].
  exists json. split; [exact Hj|]. split; [exact Hf|].
  intros Hl Hu Hd. exact (init_tras_escritura from_json _ _ _ _ Hf Hl Hu Hd).
Qed.

Ltac refleja_fin :=
  first [ solve [unfold refleja; simpl; auto]
        | solve [cbv [actualizar guardar File.repo File.actualizar File.guardar]; cbv zeta;
                 refleja_guardado] ].

(** The reservation service run over the file-backed repository behaves
    as over the in-memory repository run on its cache: [crear_reserva],
    [cancelar_reserva] and [completar_reserva] leave the same cache and
    return the same result, except that a success becomes the error of
    [save_to_file] when saving fails, with the cache changed all the
    same. *)
Theorem servicio_file_refleja_inmemory (to_json : File.ReservasData -> Result string string)
    (sala_obtener : string -> Result (option Salas.Sala) string)
    (usuario_obtener : string -> Result (option Usuarios.Usuario) string)
    (st : File.FileState) (ahora creado ahora_temp : Z) (uuid sala usuario : string)
    (ini fin : Z) (k : string) :
  let c := File.cache (File.instancia st) in
  refleja to_json st
    (@Servicio.crear_reserva _ (File.repo to_json) sala_obtener usuario_obtener
       ahora creado ahora_temp uuid sala usuario ini fin st)
    (Servicio.crear_reserva sala_obtener usuario_obtener
       ahora creado ahora_temp uuid sala usuario ini fin c) /\
  refleja to_json st (@Servicio.cancelar_reserva _ (File.repo to_json) k st)
    (Servicio.cancelar_reserva k c) /\
  refleja to_json st (@Servicio.completar_reserva _ (File.repo to_json) k st)
    (Servicio.completar_reserva k c).
Proof.
  intros c. subst c. split; [|split].
  - rewrite crear_reserva_inmemory. unfold Servicio.crear_reserva.
    destruct (sala_obtener sala) as [[s|]|e];
      cbv [mbind M_bind mret M_ret mthrow M_throw]; [|refleja_fin..].
    destruct (Salas.esta_activa s); cbn [negb]; [|refleja_fin].
    destruct (usuario_obtener usuario) as [[u|]|e]; [|refleja_fin..].
    destruct (new _ _ _ _ _ _ _) as [r|e]; cbv [lift_result]; [|refleja_fin].
    unfold Servicio.verificar_disponibilidad.
    cbv [mbind M_bind mret M_ret listar_por_sala_y_rango File.repo
         File.listar_por_sala_y_rango InMemory.repo InMemory.listar_por_sala_y_rango].
    destruct (negb (existsb _ _)); cbn [negb]; refleja_fin.
  - rewrite cancelar_reserva_inmemory. unfold Servicio.cancelar_reserva.
    cbv [mbind M_bind mret M_ret mthrow M_throw obtener File.repo File.obtener].
    destruct (File.cache (File.instancia st) !! k) as [r|]; [|refleja_fin].
    destruct (esta_activa r); cbn [negb]; [|refleja_fin].
    cbv [actualizar File.actualizar]. simpl.
    destruct (File.cache (File.instancia st) !! id r); [|refleja_fin].
    cbv zeta. refleja_guardado.
  - rewrite completar_reserva_inmemory. unfold Servicio.completar_reserva.
    cbv [mbind M_bind mret M_ret mthrow M_throw obtener File.repo File.obtener].
    destruct (File.cache (File.instancia st) !! k) as [r|]; [|refleja_fin].
    destruct (esta_activa r); cbn [negb]; [|refleja_fin].
    cbv [actualizar File.actualizar]. simpl.
    destruct (File.cache (File.instancia st) !! id r); [|refleja_fin].
    cbv zeta. refleja_guardado.
Qed.

(** On the in-memory repository, an authenticated request for an id with
    no reservation gets [NotFound "Reserva no encontrada"] from
    [obtener_reserva] but [Internal] from [cancelar_reserva] and
    [completar_reserva], with the prefixed display of [NoEncontrada]; a
    stored reservation is returned by [obtener_reserva]; no handler
    changes the store when it fails. *)
Theorem grpc_reserva_ausente_inmemory (u : Grpc.AuthUser) (m : gmap string Reserva) (k : string) :
  (m !! k = None ->
     Grpc.obtener_reserva (Ok u) k m = (Err (Grpc.not_found "Reserva no encontrada"), m) /\
     Grpc.cancelar_reserva (Ok u) k m =
       (Err (Grpc.internal "Error al cancelar reserva: Reserva no encontrada"), m) /\
     Grpc.completar_reserva (Ok u) k m =
       (Err (Grpc.internal "Error al completar reserva: Reserva no encontrada"), m)) /\
  (forall r, m !! k = Some r -> Grpc.obtener_reserva (Ok u) k m = (Ok r, m)) /\
  (forall s m', Grpc.cancelar_reserva (Ok u) k m = (Err s, m') \/
                Grpc.completar_reserva (Ok u) k m = (Err s, m') -> m' = m).
Proof.
  unfold Grpc.cancelar_reserva, Grpc.completar_reserva, Grpc.obtener_reserva, Grpc.con_servicio.
  rewrite cancelar_reserva_inmemory, completar_reserva_inmemory.
  cbv [Servicio.obtener_reserva obtener InMemory.repo InMemory.obtener].
  split; [|split].
  - intros ->. auto.
  - intros r ->. reflexivity.
  - intros s m'. destruct (m !! k) as [r|]; [|intros [[= _ <-]|[= _ <-]]; reflexivity].
    destruct (esta_activa r); cbn [negb]; [|intros [[= _ <-]|[= _ <-]]; reflexivity].
    destruct (m !! id r); [|intros [[= _ <-]|[= _ <-]]; reflexivity].
    intros [H|H]; discriminate.
Qed.

(** On the in-memory repository, an authenticated [cancelar_reserva]
    (resp. [completar_reserva]) of a stored reservation that is not
    [Activa] fails with [Internal] and the displayed validation error,
    store unchanged. *)
Theorem grpc_reserva_no_activa_inmemory (u : Grpc.AuthUser) (m : gmap string Reserva)
    (k : string) (r : Reserva) :
  m !! k = Some r -> estado r <> Activa ->
  Grpc.cancelar_reserva (Ok u) k m =
    (Err (Grpc.internal ("Error al cancelar reserva: Errores de validación: " ++
                         "Solo se pueden cancelar reservas activas")), m) /\
  Grpc.completar_reserva (Ok u) k m =
    (Err (Grpc.internal ("Error al completar reserva: Errores de validación: " ++
                         "Solo se pueden completar reservas activas")), m).
Proof.
  intros Hk Ha. unfold Grpc.cancelar_reserva, Grpc.completar_reserva, Grpc.con_servicio.
  rewrite cancelar_reserva_inmemory, completar_reserva_inmemory, Hk.
  assert (E : esta_activa r = false) by (unfold esta_activa; destruct (estado r); congruence).
  rewrite E. split; reflexivity.
Qed.

(** A file-backed repository whose file is present and readable but does
    not decode: [init] fails with ["Error al parsear JSON: "] and serde's
    message when the file is valid UTF-8, with ["Error al leer archivo: "]
    and the io error of [read_to_string] when it is not, and keeps the
    empty cache of [new] either way; a [guardar] on it afterwards, when
    saving meets no failure, succeeds and writes over the file the
    document of only the new reservation. *)
Theorem archivo_corrupto_guardar (to_json : File.ReservasData -> Result string string)
    (from_json : string -> Result File.ReservasData string) (path : string) (fs0 : File.Fs)
    (contenido msg json : string) (r : Reserva) :
  File.archivos fs0 !! path = Some contenido -> File.error_lectura fs0 !! path = None ->
  let st := File.mkState (File.new path) fs0 in
  (File.utf8_valido contenido = true -> from_json contenido = Err msg ->
     File.init from_json st = (Err (ErrorRepositorio ("Error al parsear JSON: " ++ msg)), st)) /\
  (File.utf8_valido contenido = false ->
     File.init from_json st =
       (Err (ErrorRepositorio ("Error al leer archivo: " ++ File.msg_utf8_invalido)), st)) /\
  (File.error_directorio fs0 !! path = None -> File.error_escritura fs0 !! path = None ->
   to_json {| File.reservas := {[id r := r]} |} = Ok json ->
   exists st', File.guardar to_json r st = (Ok tt, st') /\
     File.cache (File.instancia st') = {[id r := r]} /\
     File.archivos (File.fs st') !! path = Some json).
Proof.
  intros Ha Hl st. subst st. split; [|split].
  - intros Hu Hd. unfold File.init, File.load_from_file, File.exists_, File.read_to_string.
    cbn [File.instancia File.fs File.file_path File.new]. rewrite Hl, Ha. cbn [negb].
    rewrite Hu, Hd. reflexivity.
  - intros Hu. unfold File.init, File.load_from_file, File.exists_, File.read_to_string.
    cbn [File.instancia File.fs File.file_path File.new]. rewrite Hl, Ha. cbn [negb].
    rewrite Hu. reflexivity.
  - intros Hd He Hj. unfold File.guardar. cbv zeta. rewrite mutacion_archivo.
    unfold File.save_to_file, File.fs_write.
    cbn [File.instancia File.fs File.file_path File.new File.set_cache File.cache].
    rewrite Hd, insert_empty, Hj, He. eexists. split; [reflexivity|].
    cbn. split; [reflexivity|]. apply lookup_insert_eq.
Qed.
(** On the in-memory repository, a room available for [ini, fin) is
    available for every sub-interval, and entries of another room or not
    [Activa] never change an availability answer: it is the same as with
    that key removed. *)
Theorem verificar_disponibilidad_subintervalo_y_ajenas (m : gmap string Reserva)
    (ahora : Z) (sala : string) (ini fin ini' fin' : Z) (k : string) (r : Reserva) :
  (fst (Servicio.verificar_disponibilidad ahora sala ini fin m) = Ok true ->
   ini <= ini' -> fin' <= fin ->
   fst (Servicio.verificar_disponibilidad ahora sala ini' fin' m) = Ok true) /\
  (sala_id r <> sala \/ estado r <> Activa ->
   fst (Servicio.verificar_disponibilidad ahora sala ini fin (<[k := r]> m)) =
   fst (Servicio.verificar_disponibilidad ahora sala ini fin (delete k m))).
Proof.
  split.
  - intros H Hi Hf.
    destruct (verificar_disponibilidad_inmemory_spec ahora sala ini fin m) as (b & Eb & Hb).
    destruct (verificar_disponibilidad_inmemory_spec ahora sala ini' fin' m) as (b' & -> & Hb').
    rewrite Eb in H. injection H as ->. destruct b'; [reflexivity|].
    destruct (proj1 Hb' eq_refl) as (k' & r' & Hk & Hs & He & H1 & H2).
    assert (true = false); [|discriminate].
    apply Hb. exists k', r'. repeat split; auto; lia.
  - intros Hr. apply verificar_disponibilidad_ext. split.
    + intros (k' & r' & Hk & Hp). destruct (decide (k = k')) as [<-|Hne].
      * rewrite lookup_insert_eq in Hk. injection Hk as <-. tauto.
      * rewrite lookup_insert_ne in Hk by done. exists k', r'.
        rewrite lookup_delete_ne by done. auto.
    + intros (k' & r' & Hk & Hp). destruct (decide (k = k')) as [<-|Hne].
      * rewrite lookup_delete_eq in Hk. discriminate.
      * rewrite lookup_delete_ne in Hk by done. exists k', r'.
        rewrite lookup_insert_ne by done. auto.
Qed.

(** Reads after writes, on both repositories: after [guardar r] (on the
    file-backed one even when saving fails) [obtener (id r)] returns [r];
    after a successful [eliminar k], [obtener k] returns nothing; other
    keys keep their entries. *)
Theorem obtener_tras_guardar_eliminar (to_json : File.ReservasData -> Result string string)
    (m : gmap string Reserva) (st : File.FileState) (r : Reserva) (k k' : string) :
  fst (InMemory.obtener (id r) (snd (InMemory.guardar r m))) = Ok (Some r) /\
  fst (File.obtener (id r) (snd (File.guardar to_json r st))) = Ok (Some r) /\
  (fst (InMemory.eliminar k m) = Ok tt ->
     fst (InMemory.obtener k (snd (InMemory.eliminar k m))) = Ok None) /\
  (fst (File.eliminar to_json k st) = Ok tt ->
     fst (File.obtener k (snd (File.eliminar to_json k st))) = Ok None) /\
  (k' <> id r ->
     fst (File.obtener k' (snd (File.guardar to_json r st))) = fst (File.obtener k' st) /\
     fst (InMemory.obtener k' (snd (InMemory.guardar r m))) = fst (InMemory.obtener k' m)).
Proof.
  unfold File.guardar, File.eliminar, InMemory.eliminar, File.obtener. cbv zeta.
  cbn [fst]. rewrite !cache_tras_guardado. split; [|split; [|split; [|split]]].
  - simpl. by rewrite lookup_insert_eq.
  - by rewrite lookup_insert_eq.
  - destruct (m !! k); [|discriminate]. intros _. simpl. by rewrite lookup_delete_eq.
  - destruct (File.cache (File.instancia st) !! k); [|discriminate].
    intros _. rewrite cache_tras_guardado. by rewrite lookup_delete_eq.
  - intros Hne. simpl. rewrite !lookup_insert_ne by congruence. auto.
Qed.

(* ------------------------------------------------------------------ *)
(** ** Witnesses of the further properties *)

Lemma sin_solapamientos_repo_r1 : sin_solapamientos repo_r1.
Proof.
  apply sin_solapamientos_insert.
  - intros k1 k2 r1 r2 _ H. rewrite lookup_empty in H. discriminate.
  - intros k' r' _ H. rewrite lookup_empty in H. discriminate.
Qed.

Lemma claves_coherentes_repo_r1 : claves_coherentes repo_r1.
Proof. apply map_Forall_insert_2; [reflexivity | apply map_Forall_empty]. Qed.

Lemma crear_reserva_sin_solapamientos_witness :
  sin_solapamientos repo_r1 /\
  sin_solapamientos
    (snd (Servicio.crear_reserva (fun _ => Ok (Some sala_r1)) (fun _ => Ok (Some usuario_u1))
            0 0 0 "r2" "R1" "U1" (hora 13) (hora 14) repo_r1)).
Proof.
  split; [exact sin_solapamientos_repo_r1|].
  exact (crear_reserva_sin_solapamientos (fun _ => Ok (Some sala_r1))
           (fun _ => Ok (Some usuario_u1)) 0 0 0 "r2" "R1" "U1" (hora 13) (hora 14)
           repo_r1 sin_solapamientos_repo_r1).
Defined.

Lemma crear_reserva_disponibilidad_inmemory_witness :
  new 0 0 "r2" "R1" "U1" (hora 11) (hora 13) =
    Ok (from_existing "r2" "R1" "U1" (hora 11) (hora 13) Activa 0) /\
  Servicio.crear_reserva (fun _ => Ok (Some sala_r1)) (fun _ => Ok (Some usuario_u1))
    0 0 0 "r2" "R1" "U1" (hora 11) (hora 13) repo_r1 =
    (Err (Validacion [Servicio.msg_no_disponible]), repo_r1).
Proof.
  assert (Hn : new 0 0 "r2" "R1" "U1" (hora 11) (hora 13) =
                 Ok (from_existing "r2" "R1" "U1" (hora 11) (hora 13) Activa 0))
    by (vm_compute; reflexivity).
  split; [exact Hn|].
  apply (proj2 (crear_reserva_disponibilidad_inmemory (fun _ => Ok (Some sala_r1))
           (fun _ => Ok (Some usuario_u1)) 0 0 0 "r2" "R1" "U1" (hora 11) (hora 13)
           repo_r1 sala_r1 usuario_u1 _ eq_refl eq_refl eq_refl Hn)).
  exists "r1"%string, r10_12. vm_compute. repeat split; reflexivity.
Defined.

Lemma crear_reserva_bloquea_intervalo_witness :
  Servicio.crear_reserva (fun _ => Ok (Some sala_r1)) (fun _ => Ok (Some usuario_u1))
    0 0 0 "r2" "R1" "U1" (hora 13) (hora 14) repo_r1 =
    (Ok (from_existing "r2" "R1" "U1" (hora 13) (hora 14) Activa 0),
     <["r2" := from_existing "r2" "R1" "U1" (hora 13) (hora 14) Activa 0]> repo_r1) /\
  Servicio.verificar_disponibilidad 5 "R1" (hora 13) (hora 14)
    (<["r2" := from_existing "r2" "R1" "U1" (hora 13) (hora 14) Activa 0]> repo_r1) =
    (Ok false, <["r2" := from_existing "r2" "R1" "U1" (hora 13) (hora 14) Activa 0]> repo_r1).
Proof.
  assert (Hc : Servicio.crear_reserva (fun _ => Ok (Some sala_r1))
                 (fun _ => Ok (Some usuario_u1)) 0 0 0 "r2" "R1" "U1" (hora 13) (hora 14)
                 repo_r1 =
    (Ok (from_existing "r2" "R1" "U1" (hora 13) (hora 14) Activa 0),
     <["r2" := from_existing "r2" "R1" "U1" (hora 13) (hora 14) Activa 0]> repo_r1))
    by (vm_compute; reflexivity).
  split; [exact Hc|].
  exact (crear_reserva_bloquea_intervalo (fun _ => Ok (Some sala_r1))
           (fun _ => Ok (Some usuario_u1)) 0 0 0 "r2" "R1" "U1" (hora 13) (hora 14)
           repo_r1 _ _ 5 Hc).
Defined.

Lemma cancelar_completar_sin_solapamientos_witness :
  sin_solapamientos repo_r1 /\
  sin_solapamientos (snd (Servicio.cancelar_reserva "r1" repo_r1)) /\
  sin_solapamientos (snd (Servicio.completar_reserva "r1" repo_r1)).
Proof.
  split; [exact sin_solapamientos_repo_r1|].
  exact (cancelar_completar_sin_solapamientos repo_r1 "r1" sin_solapamientos_repo_r1).
Defined.

Lemma cancelar_completar_libera_intervalo_witness :
  claves_coherentes repo_r1 /\
  fst (Servicio.verificar_disponibilidad 0 "R1" (hora 11) (hora 13)
         (snd (Servicio.cancelar_reserva "r1" repo_r1))) =
  fst (Servicio.verificar_disponibilidad 0 "R1" (hora 11) (hora 13) (delete "r1" repo_r1)) /\
  fst (Servicio.verificar_disponibilidad 0 "R1" (hora 11) (hora 13)
         (snd (Servicio.completar_reserva "r1" repo_r1))) =
  fst (Servicio.verificar_disponibilidad 0 "R1" (hora 11) (hora 13) (delete "r1" repo_r1)).
Proof.
  split; [exact claves_coherentes_repo_r1|].
  exact (cancelar_completar_libera_intervalo repo_r1 "r1" 0 "R1" (hora 11) (hora 13)
           claves_coherentes_repo_r1).
Defined.

Lemma count_guardar_eliminar_clear_witness :
  fst (InMemory.eliminar "r1" repo_r1) = Ok tt /\
  S (InMemory.count (snd (InMemory.eliminar "r1" repo_r1))) = InMemory.count repo_r1.
Proof.
  assert (H : fst (InMemory.eliminar "r1" repo_r1) = Ok tt) by (vm_compute; reflexivity).
  split; [exact H|].
  exact (proj1 (proj2 (count_guardar_eliminar_clear repo_r1 r10_12 "r1")) H).
Defined.

Lemma new_duracion_minutos_witness :
  new 0 0 "r2" "R1" "U1" (hora 13) (hora 14) =
    Ok (from_existing "r2" "R1" "U1" (hora 13) (hora 14) Activa 0) /\
  15 <= duracion_minutos (from_existing "r2" "R1" "U1" (hora 13) (hora 14) Activa 0) <= 480.
Proof.
  assert (Hn : new 0 0 "r2" "R1" "U1" (hora 13) (hora 14) =
                 Ok (from_existing "r2" "R1" "U1" (hora 13) (hora 14) Activa 0))
    by (vm_compute; reflexivity).
  split; [exact Hn|]. exact (new_duracion_minutos 0 0 "r2" "R1" "U1" _ _ _ Hn).
Defined.

Lemma mutacion_persiste_cache_witness :
  File.guardar to_json_r1 r10_12 estado_escribible =
    (Ok tt, snd (File.guardar to_json_r1 r10_12 estado_escribible)) /\
  File.init from_json_r1
    (File.mkState (File.new "data/reservas.json")
       (File.fs (snd (File.guardar to_json_r1 r10_12 estado_escribible)))) =
  (Ok tt, File.mkState (File.mkRepo "data/reservas.json"
                          (File.cache (File.instancia
                             (snd (File.guardar to_json_r1 r10_12 estado_escribible)))))
            (File.fs (snd (File.guardar to_json_r1 r10_12 estado_escribible)))).
Proof.
  assert (Hg : File.guardar to_json_r1 r10_12 estado_escribible =
                 (Ok tt, snd (File.guardar to_json_r1 r10_12 estado_escribible)))
    by (vm_compute; reflexivity).
  split; [exact Hg|].
  destruct (proj2 (mutacion_persiste_cache to_json_r1 from_json_r1
           estado_escribible _ r10_12 "r1" (or_introl Hg))) as (json & Hj & _ & Hi).
  cbv [to_json_r1] in Hj. injection Hj as <-.
  apply Hi; vm_compute; reflexivity.
Defined.

Lemma grpc_reserva_ausente_inmemory_witness :
  repo_r1 !! "r9" = None /\
  Grpc.obtener_reserva (Ok (Grpc.mkAuthUser "U1" "ana@example.com")) "r9" repo_r1 =
    (Err (Grpc.not_found "Reserva no encontrada"), repo_r1) /\
  Grpc.cancelar_reserva (Ok (Grpc.mkAuthUser "U1" "ana@example.com")) "r9" repo_r1 =
    (Err (Grpc.internal "Error al cancelar reserva: Reserva no encontrada"), repo_r1) /\
  Grpc.completar_reserva (Ok (Grpc.mkAuthUser "U1" "ana@example.com")) "r9" repo_r1 =
    (Err (Grpc.internal "Error al completar reserva: Reserva no encontrada"), repo_r1).
Proof.
  assert (H : repo_r1 !! "r9" = None) by reflexivity.
  split; [exact H|].
  exact (proj1 (grpc_reserva_ausente_inmemory (Grpc.mkAuthUser "U1" "ana@example.com")
                  repo_r1 "r9") H).
Defined.

Lemma grpc_reserva_no_activa_inmemory_witness :
  <["r1" := cancelar r10_12]> repo_r1 !! "r1" = Some (cancelar r10_12) /\
  estado (cancelar r10_12) <> Activa /\
  Grpc.cancelar_reserva (Ok (Grpc.mkAuthUser "U1" "ana@example.com")) "r1"
    (<["r1" := cancelar r10_12]> repo_r1) =
    (Err (Grpc.internal ("Error al cancelar reserva: Errores de validación: " ++
                         "Solo se pueden cancelar reservas activas")),
     <["r1" := cancelar r10_12]> repo_r1).
Proof.
  assert (H1 : <["r1" := cancelar r10_12]> repo_r1 !! "r1" = Some (cancelar r10_12))
    by reflexivity.
  assert (H2 : estado (cancelar r10_12) <> Activa) by discriminate.
  split; [exact H1|]. split; [exact H2|].
  exact (proj1 (grpc_reserva_no_activa_inmemory (Grpc.mkAuthUser "U1" "ana@example.com")
                  _ "r1" _ H1 H2)).
Defined.

Lemma archivo_corrupto_guardar_witness :
  File.archivos (File.mkFs {["data/reservas.json" := "{"]} ∅ ∅ ∅) !! "data/reservas.json"
    = Some "{"%string /\
  File.init from_json_r1
    (File.mkState (File.new "data/reservas.json") (File.mkFs {["data/reservas.json" := "{"]} ∅ ∅ ∅)) =
  (Err (ErrorRepositorio ("Error al parsear JSON: " ++ "expected value at line 1 column 1")),
   File.mkState (File.new "data/reservas.json") (File.mkFs {["data/reservas.json" := "{"]} ∅ ∅ ∅)) /\
  exists st', File.guardar to_json_r1 r10_12
      (File.mkState (File.new "data/reservas.json") (File.mkFs {["data/reservas.json" := "{"]} ∅ ∅ ∅))
      = (Ok tt, st') /\
    File.cache (File.instancia st') = {[id r10_12 := r10_12]} /\
    File.archivos (File.fs st') !! "data/reservas.json" = Some doc_r1.
Proof.
  assert (Ha : File.archivos (File.mkFs {["data/reservas.json" := "{"]} ∅ ∅ ∅) !!
                 "data/reservas.json" = Some "{"%string)
    by (vm_compute; reflexivity).
  assert (Hl : File.error_lectura (File.mkFs {["data/reservas.json" := "{"]} ∅ ∅ ∅) !!
                 "data/reservas.json" = None)
    by reflexivity.
  pose proof (archivo_corrupto_guardar to_json_r1 from_json_r1 "data/reservas.json" _ "{"
                "expected value at line 1 column 1" doc_r1 r10_12 Ha Hl) as (H1 & _ & H3).
  split; [exact Ha|]. split.
  - apply H1; vm_compute; reflexivity.
  - apply H3; reflexivity.
Defined.

Lemma verificar_disponibilidad_subintervalo_y_ajenas_witness :
  fst (Servicio.verificar_disponibilidad 0 "R1" (hora 13) (hora 17) repo_r1) = Ok true /\
  fst (Servicio.verificar_disponibilidad 0 "R1" (hora 14) (hora 15) repo_r1) = Ok true.
Proof.
  assert (H : fst (Servicio.verificar_disponibilidad 0 "R1" (hora 13) (hora 17) repo_r1) = Ok true)
    by (vm_compute; reflexivity).
  split; [exact H|].
  apply (proj1 (verificar_disponibilidad_subintervalo_y_ajenas repo_r1 0 "R1"
                  (hora 13) (hora 17) (hora 14) (hora 15) "r1" r10_12) H);
    unfold hora, Duration_hours; lia.
Defined.

Lemma obtener_tras_guardar_eliminar_witness :
  fst (InMemory.eliminar "r1" repo_r1) = Ok tt /\
  fst (InMemory.obtener "r1" (snd (InMemory.eliminar "r1" repo_r1))) = Ok None.
Proof.
  assert (H : fst (InMemory.eliminar "r1" repo_r1) = Ok tt) by (vm_compute; reflexivity).
  split; [exact H|].
  exact (proj1 (proj2 (proj2 (obtener_tras_guardar_eliminar to_json_r1 repo_r1 estado_escribible
                                r10_12 "r1" "r9"))) H).
Defined.

Lemma crear_reserva_carrera_witness :
  fst (Servicio.crear_reserva (S := gmap string Reserva) (fun _ => Ok (Some sala_r1))
         (fun _ => Ok (Some usuario_u1)) 0 0 0 "a" "R1" "U1" (hora 10) (hora 12) ∅) =
    Ok (from_existing "a" "R1" "U1" (hora 10) (hora 12) Activa 0) /\
  fst (Servicio.crear_reserva (S := gmap string Reserva) (fun _ => Ok (Some sala_r1))
         (fun _ => Ok (Some usuario_u1)) 0 0 0 "b" "R1" "U1" (hora 11) (hora 13) ∅) =
    Ok (from_existing "b" "R1" "U1" (hora 11) (hora 13) Activa 0) /\
  ~ sin_solapamientos (<["b" := from_existing "b" "R1" "U1" (hora 11) (hora 13) Activa 0]>
                         (<["a" := from_existing "a" "R1" "U1" (hora 10) (hora 12) Activa 0]> ∅)).
Proof.
  assert (H1 : fst (Servicio.crear_reserva (S := gmap string Reserva) (fun _ => Ok (Some sala_r1))
         (fun _ => Ok (Some usuario_u1)) 0 0 0 "a" "R1" "U1" (hora 10) (hora 12) ∅) =
    Ok (from_existing "a" "R1" "U1" (hora 10) (hora 12) Activa 0)) by (vm_compute; reflexivity).
  assert (H2 : fst (Servicio.crear_reserva (S := gmap string Reserva) (fun _ => Ok (Some sala_r1))
         (fun _ => Ok (Some usuario_u1)) 0 0 0 "b" "R1" "U1" (hora 11) (hora 13) ∅) =
    Ok (from_existing "b" "R1" "U1" (hora 11) (hora 13) Activa 0)) by (vm_compute; reflexivity).
  split; [exact H1|]. split; [exact H2|].
  refine (proj2 (proj2 (crear_reserva_carrera _ _ ∅ 0 0 0 0 0 0 "a" "b" "R1" "U1" "U1"
                          (hora 10) (hora 12) (hora 11) (hora 13) _ _ H1 H2 _ _ _)));
    [discriminate | unfold hora, Duration_hours; lia | unfold hora, Duration_hours; lia].
Defined.
